(** * The Kubernetes layer of azp-agent-autoscaler

    A shallow embedding of [pkg/kubernetes/kubernetes.go]: the cached client
    provider ([getClient]), the workload resolver ([GetK8sWorkload],
    [getStatefulSet]), the conflict guard ([VerifyNoHorizontalPodAutoscaler]),
    the scaler ([Scale]), [GetEnvValue] and the pod lister ([GetPods]).

    Every call that leaves the package (client-go, [os.Getenv], a channel
    send) is an event of a small free monad; the package-level variable
    [k8sClient] and the [*Workload] pointees live in an explicit memory that
    is threaded through the functions.  A program is run against an arbitrary
    handler over an arbitrary world, and the run records the calls that were
    made together with their answers. *)

From Stdlib Require Import String Ascii List ZArith Bool Lia.
Import ListNotations.
Local Open Scope string_scope.
Local Open Scope list_scope.

Set Implicit Arguments.

(** ** Values *)

(** A Go [error] value.  [fmt.Errorf] builds an [errorString]; anything a
    library hands back is a [libraryError], told apart by a code. *)
Inductive error : Type :=
| errorString (msg : string)
| libraryError (code : nat) (msg : string).

(** The [Error()] method. *)
Definition Error (e : error) : string :=
  match e with
  | errorString msg => msg
  | libraryError _ msg => msg
  end.

(** [fmt.Errorf] once the [%s] verbs have been filled in. *)
Definition Errorf (msg : string) : error := errorString msg.

(** The client-go and API types, one module per Go package.  [*rest.Config]
    and [*k8s.Clientset] are only passed on by this package, so they are
    handles.  A configuration is never looked into here, so its handle
    stands for the nil pointer as well; a client is used, so a nil client is
    told apart where it can occur. *)
Module k8srest.
Record Config : Type := { config_id : nat }.
End k8srest.

Module k8s.
Record Clientset : Type := { clientset_id : nat }.
End k8s.

Module metav1.
(** [LabelSelector], reduced to its [MatchLabels]. *)
Record LabelSelector : Type := { MatchLabels : list (string * string) }.
Record ObjectMeta : Type :=
  { Name : string; Namespace : string; ResourceVersion : string }.
Record ListOptions : Type := { LabelSelector_ : string }.
(** The literal [metav1.ListOptions{}]. *)
Definition no_options : ListOptions := {| LabelSelector_ := "" |}.
End metav1.

Module autoscalingv1.
(** [int32] is a [Z]: it is only compared and stored here, never computed
    with. *)
Record ScaleSpec : Type := { Replicas : Z }.
Record ScaleStatus : Type := { StatusReplicas : Z; Selector : string }.
Record Scale : Type :=
  { ObjectMeta : metav1.ObjectMeta; Spec : ScaleSpec; Status : ScaleStatus }.

(** The assignment [scale.Spec.Replicas = replicas]. *)
Definition set_Replicas (scale : Scale) (replicas : Z) : Scale :=
  {| ObjectMeta := ObjectMeta scale;
     Spec := {| Replicas := replicas |};
     Status := Status scale |}.

Record CrossVersionObjectReference : Type :=
  { Kind : string; Name : string; APIVersion : string }.
Record HorizontalPodAutoscalerSpec : Type :=
  { ScaleTargetRef : CrossVersionObjectReference;
    MinReplicas : option Z;
    MaxReplicas : Z }.
Record HorizontalPodAutoscaler : Type :=
  { hpa_ObjectMeta : metav1.ObjectMeta; hpa_Spec : HorizontalPodAutoscalerSpec }.
Record HorizontalPodAutoscalerList : Type :=
  { Items : list HorizontalPodAutoscaler }.
End autoscalingv1.

Module corev1.
(** A slice is its sequence of elements and the nil slice is [nil]; no
    slice is compared with nil in this package. *)
Record Pod : Type := { ObjectMeta : metav1.ObjectMeta; Phase : string }.
Record PodList : Type := { Items : list Pod }.

(** [ValueFrom] points to a source that is never followed; it is kept as
    the name of what it points to. *)
Record EnvVar : Type :=
  { Name : string; Value : string; ValueFrom : option string }.
End corev1.

Module appsv1.
(** A StatefulSet, with the fields a workload is projected from. *)
Record StatefulSet : Type :=
  { ObjectMeta : metav1.ObjectMeta;
    Selector : option metav1.LabelSelector;
    Replicas : option Z }.
End appsv1.

(** Modelled from the spec: the [Workload] struct is declared outside
    kubernetes.go.  The spec gives it a kind tag, a namespace, a name and a
    pod selector. *)
Record Workload : Type :=
  { Kind : string; Namespace : string; Name : string; PodSelector : option metav1.LabelSelector }.

(** Modelled from the spec: [WorkloadReturn], the message of the resolver's
    channel, is declared outside kubernetes.go.  It pairs a workload with an
    error, as [Pods] below pairs a pod slice with one. *)
Record WorkloadReturn : Type :=
  { Resource : option Workload; wr_Err : option error }.

(** Modelled from the spec: [GetWorkloadReturn] is defined outside
    kubernetes.go; it wraps its two arguments. *)
Definition GetWorkloadReturn (workload : option Workload) (err : option error) : WorkloadReturn :=
  {| Resource := workload; wr_Err := err |}.

(** Modelled from the spec: [GetWorkload] is defined outside kubernetes.go;
    on success the resolver "projects the fetched object into a Workload",
    tagged with the one supported kind and carrying no error. *)
Definition GetWorkload (statefulSet : appsv1.StatefulSet) : WorkloadReturn :=
  GetWorkloadReturn
    (Some {| Kind := "StatefulSet";
             Namespace := metav1.Namespace (appsv1.ObjectMeta statefulSet);
             Name := metav1.Name (appsv1.ObjectMeta statefulSet);
             PodSelector := appsv1.Selector statefulSet |})
    None.

(** [Pods] wraps [[]corev1.Pod] and an error for the pod lister's channel. *)
Record Pods : Type := { Pods_ : list corev1.Pod; Err : option error }.

(** A channel is known by its identity. *)
Record chan : Type := { chan_id : nat }.

(** ** Calls that leave the package *)

(** Each constructor is one call, indexed by the type of its answer.  A Go
    result, a pointer and an [error], is a pair of options: either side may
    be nil. *)
Inductive call : Type -> Type :=
| InClusterConfig : call (k8srest.Config * option error)
| Getenv (key : string) : call string
| BuildConfigFromFlags (masterUrl kubeconfigPath : string) :
    call (k8srest.Config * option error)
| NewForConfig (c : k8srest.Config) : call (option k8s.Clientset * option error)
| StatefulSets_Get (client : k8s.Clientset) (namespace name : string) :
    call (option appsv1.StatefulSet * option error)
| StatefulSets_GetScale (client : k8s.Clientset) (namespace name : string) :
    call (option autoscalingv1.Scale * option error)
| StatefulSets_UpdateScale (client : k8s.Clientset) (namespace name : string)
    (scale : autoscalingv1.Scale) :
    call (option autoscalingv1.Scale * option error)
| HorizontalPodAutoscalers_List (client : k8s.Clientset) (namespace : string)
    (opts : metav1.ListOptions) :
    call (option autoscalingv1.HorizontalPodAutoscalerList * option error)
| Pods_List (client : k8s.Clientset) (namespace : string) (opts : metav1.ListOptions) :
    call (option corev1.PodList * option error)
| Send_WorkloadReturn (channel : chan) (m : WorkloadReturn) : call unit
| Send_error (channel : chan) (m : option error) : call unit
| Send_Pods (channel : chan) (m : Pods) : call unit.

(** A call together with the answer it got. *)
Inductive event : Type :=
| Event {X : Type} (c : call X) (x : X).

Definition trace : Type := list event.

(** ** Programs *)

(** A program returns, panics (a nil dereference), or makes a call and goes
    on with the answer. *)
Inductive prog (A : Type) : Type :=
| Ret (a : A)
| Panic
| Vis {X : Type} (c : call X) (k : X -> prog A).

Arguments Panic {A}.

Fixpoint pbind {A B : Type} (p : prog A) (f : A -> prog B) : prog B :=
  match p with
  | Ret a => f a
  | Panic => Panic
  | Vis c k => Vis c (fun x => pbind (k x) f)
  end.

(** The package-level [var k8sClient = k8sClientSet{}]. *)
Record k8sClientSet : Type := { client : option k8s.Clientset }.

(** A [*Workload] is nil or the address of a descriptor the caller holds,
    and the descriptors are the values at the addresses: what a function
    does to a descriptor shows in the memory it leaves. *)
Definition address : Type := nat.

Definition WorkloadPtr : Type := option address.

Record memory : Type :=
  { k8sClient : k8sClientSet; workloads : address -> Workload }.

(** State over programs. *)
Definition M (A : Type) : Type := memory -> prog (A * memory).

Definition ret {A : Type} (a : A) : M A := fun m => Ret (a, m).

Definition bind {A B : Type} (c : M A) (f : A -> M B) : M B :=
  fun m => pbind (c m) (fun am => f (fst am) (snd am)).

Definition panic {A : Type} : M A := fun _ => Panic.

Definition do {X : Type} (c : call X) : M X := fun m => Vis c (fun x => Ret (x, m)).

Declare Scope go_scope.
Delimit Scope go_scope with go.
Notation "x <- c ;; k" := (bind c (fun x => k))
  (at level 100, c at next level, right associativity) : go_scope.
Notation "' pat <- c ;; k" := (bind c (fun x => let 'pat := x in k))
  (at level 100, pat pattern, c at next level, right associativity) : go_scope.
Notation "c ;;; k" := (bind c (fun _ => k))
  (at level 100, right associativity) : go_scope.
Local Open Scope go_scope.

(** Using a pointer that may be nil. *)
Definition nonnil {A : Type} (p : option A) : M A :=
  match p with
  | Some a => ret a
  | None => panic
  end.

(** Reading [wrapper.client] and assigning to it. *)
Definition load_client : M (option k8s.Clientset) :=
  fun m => Ret (client (k8sClient m), m).

Definition store_client (c : option k8s.Clientset) : M unit :=
  fun m => Ret (tt, {| k8sClient := {| client := c |}; workloads := workloads m |}).

(** Reading a field through a [*Workload]: a nil pointer panics. *)
Definition field {A : Type} (f : Workload -> A) (p : WorkloadPtr) : M A :=
  fun m =>
    match p with
    | Some a => Ret (f (workloads m a), m)
    | None => Panic
    end.

(** ** Running a program *)

Inductive outcome (A : Type) : Type :=
| Done (a : A)
| Panicked.

Arguments Panicked {A}.

(** The world outside answers every call and may change as it does. *)
Definition handler (W : Type) : Type := forall X : Type, call X -> W -> X * W.

Fixpoint run {W A : Type} (h : handler W) (p : prog A) (w : W) : outcome A * W * trace :=
  match p with
  | Ret a => (Done a, w, [])
  | Panic => (Panicked, w, [])
  | Vis c k =>
      let '(x, w1) := h _ c w in
      let '(o, w2, t) := run h (k x) w1 in
      (o, w2, Event c x :: t)
  end.

(** ** The package *)

Section Kubernetes.

(** Go's [strings.EqualFold] and [strings.ToLower], and apimachinery's
    [FormatLabelSelector]: library functions, left open. *)
Variable EqualFold : string -> string -> bool.
Variable ToLower : string -> string.
Variable FormatLabelSelector : option metav1.LabelSelector -> string.

(** [getClient] returns a Kubernetes client, which is cached. *)
Definition getClient : M (option k8s.Clientset * option error) :=
  cached <- load_client ;;
  match cached with
  | Some c => ret (Some c, None)
  | None =>
      '(k8sConfig, err) <- do InClusterConfig ;;
      config <-
        match err with
        | None => ret (inr k8sConfig)
        | Some _ =>
            kubeconfigEnv <- do (Getenv "KUBECONFIG") ;;
            '(k8sConfig, err) <- do (BuildConfigFromFlags "" kubeconfigEnv) ;;
            match err with
            | None => ret (inr k8sConfig)
            | Some _ =>
                home <- do (Getenv "HOME") ;;
                home <- (if String.eqb home "" then do (Getenv "USERPROFILE") else ret home) ;;
                '(k8sConfig, err) <-
                  do (BuildConfigFromFlags "" (home ++ "/.kube/config")) ;;
                match err with
                | Some e =>
                    ret (inl (Errorf ("Error initializing Kubernetes config: " ++ Error e)))
                | None => ret (inr k8sConfig)
                end
            end
        end ;;
      match config with
      | inl e => ret (None, Some e)
      | inr k8sConfig =>
          '(clientset, err) <- do (NewForConfig k8sConfig) ;;
          match err with
          | None => store_client clientset
          | Some _ => ret tt
          end ;;;
          ret (clientset, err)
      end
  end.

Definition getStatefulSet (namespace name : string) : M WorkloadReturn :=
  '(client, err) <- getClient ;;
  match err with
  | Some e => ret (GetWorkloadReturn None (Some e))
  | None =>
      client <- nonnil client ;;
      '(statefulSet, err) <- do (StatefulSets_Get client namespace name) ;;
      match err, statefulSet with
      | Some e, _ => ret (GetWorkloadReturn None (Some e))
      | None, None =>
          ret (GetWorkloadReturn None
                 (Some (Errorf ("Could not find statefulset/" ++ name
                                  ++ " in namespace " ++ namespace))))
      | None, Some statefulSet => ret (GetWorkload statefulSet)
      end
  end.

(** [GetK8sWorkload] retrieves a Workload. *)
Definition GetK8sWorkload (channel : chan) (kind namespace name : string) : M unit :=
  if EqualFold kind "StatefulSet" then
    r <- getStatefulSet namespace name ;;
    do (Send_WorkloadReturn channel r)
  else
    do (Send_WorkloadReturn channel
          (GetWorkloadReturn None
             (Some (Errorf ("Resource kind " ++ kind ++ " is not implemented"))))).

(** The [for _, hpa := range hpas.Items] loop; the answer tells whether the
    function returned from inside the loop. *)
Fixpoint range_hpas (channel : chan) (kind name : string)
    (items : list autoscalingv1.HorizontalPodAutoscaler) : M bool :=
  match items with
  | [] => ret false
  | hpa :: rest =>
      let target := autoscalingv1.ScaleTargetRef (autoscalingv1.hpa_Spec hpa) in
      if EqualFold (autoscalingv1.Kind target) kind
         && String.eqb (autoscalingv1.Name target) name
      then
        do (Send_error channel
              (Some (Errorf ("Error: " ++ ToLower kind ++ "/" ++ name
                 ++ " cannot have a HorizontalPodAutoscaler attached"
                 ++ " for azp-agent-autoscaler to work")))) ;;;
        ret true
      else range_hpas channel kind name rest
  end.

(** [VerifyNoHorizontalPodAutoscaler] returns an error if the given
    resource has a HorizontalPodAutoscaler. *)
Definition VerifyNoHorizontalPodAutoscaler (channel : chan) (kind namespace name : string) :
    M unit :=
  '(client, err) <- getClient ;;
  match err with
  | Some e => do (Send_error channel (Some e))
  | None =>
      client <- nonnil client ;;
      '(hpas, err) <-
        do (HorizontalPodAutoscalers_List client namespace metav1.no_options) ;;
      match err with
      | Some e => do (Send_error channel (Some e))
      | None =>
          hpas <- nonnil hpas ;;
          returned <- range_hpas channel kind name (autoscalingv1.Items hpas) ;;
          if returned then ret tt else do (Send_error channel None)
      end
  end.

(** [Scale] scales a given Kubernetes resource. *)
Definition Scale (resource : WorkloadPtr) (replicas : Z) : M (option error) :=
  '(client, err) <- getClient ;;
  match err with
  | Some e => ret (Some e)
  | None =>
      kind <- field Kind resource ;;
      if EqualFold kind "StatefulSet" then
        client <- nonnil client ;;
        namespace <- field Namespace resource ;;
        name <- field Name resource ;;
        '(scale, err) <- do (StatefulSets_GetScale client namespace name) ;;
        match err with
        | Some e => ret (Some e)
        | None =>
            scale <- nonnil scale ;;
            if Z.eqb (autoscalingv1.Replicas (autoscalingv1.Spec scale)) replicas then ret None
            else
              let scale := autoscalingv1.set_Replicas scale replicas in
              name <- field Name resource ;;
              '(_, err) <- do (StatefulSets_UpdateScale client namespace name scale) ;;
              ret err
        end
      else
        kind <- field Kind resource ;;
        ret (Some (Errorf ("Resource kind " ++ kind ++ " is not implemented")))
  end.

(** [GetEnvValue] gets an environment variable value. *)
Definition GetEnvValue (env : corev1.EnvVar) : string * option error :=
  if negb (String.eqb (corev1.Value env) "") then (corev1.Value env, None)
  else ("", Some (Errorf ("Error getting value for environment variable " ++ corev1.Name env))).

(** [GetPods] gets all pods attached to some workload. *)
Definition GetPods (channel : chan) (workload : WorkloadPtr) : M unit :=
  '(client, err) <- getClient ;;
  match err with
  | Some e => do (Send_Pods channel {| Pods_ := nil; Err := Some e |})
  | None =>
      selector <- field PodSelector workload ;;
      let listOptions := {| metav1.LabelSelector_ := FormatLabelSelector selector |} in
      client <- nonnil client ;;
      namespace <- field Namespace workload ;;
      '(pods, err) <- do (Pods_List client namespace listOptions) ;;
      match err with
      | Some e => do (Send_Pods channel {| Pods_ := nil; Err := Some e |})
      | None =>
          pods <- nonnil pods ;;
          do (Send_Pods channel {| Pods_ := corev1.Items pods; Err := None |})
      end
  end.

(** The test of the scan, as the loop body writes it. *)
Definition targets (kind name : string) (hpa : autoscalingv1.HorizontalPodAutoscaler) : bool :=
  let target := autoscalingv1.ScaleTargetRef (autoscalingv1.hpa_Spec hpa) in
  EqualFold (autoscalingv1.Kind target) kind && String.eqb (autoscalingv1.Name target) name.

(** The message of a conflict. *)
Definition conflict (channel : chan) (kind name : string) : call unit :=
  Send_error channel
    (Some (Errorf ("Error: " ++ ToLower kind ++ "/" ++ name
       ++ " cannot have a HorizontalPodAutoscaler attached"
       ++ " for azp-agent-autoscaler to work"))).

End Kubernetes.

(** ** What a run shows *)

(** The value a run returned, if it returned. *)
Definition returned {A : Type} (o : outcome (A * memory)) : option A :=
  match o with
  | Done (a, _) => Some a
  | Panicked => None
  end.

(** The messages sent on the three kinds of channel, with their channel. *)
Definition workload_message (e : event) : option (chan * WorkloadReturn) :=
  match e with
  | Event (Send_WorkloadReturn channel m) _ => Some (channel, m)
  | _ => None
  end.

Definition error_message (e : event) : option (chan * option error) :=
  match e with
  | Event (Send_error channel m) _ => Some (channel, m)
  | _ => None
  end.

Definition pods_message (e : event) : option (chan * Pods) :=
  match e with
  | Event (Send_Pods channel m) _ => Some (channel, m)
  | _ => None
  end.

Fixpoint pick {A B : Type} (f : A -> option B) (l : list A) : list B :=
  match l with
  | [] => []
  | a :: rest =>
      match f a with
      | Some b => b :: pick f rest
      | None => pick f rest
      end
  end.

Definition is_send (e : event) : bool :=
  match e with
  | Event (Send_WorkloadReturn _ _) _ => true
  | Event (Send_error _ _) _ => true
  | Event (Send_Pods _ _) _ => true
  | _ => false
  end.

(** How many messages a run sent, on any channel. *)
Definition sends (t : trace) : nat := length (filter is_send t).

(** The calls of the client provider: configuration and construction. *)
Definition is_client_setup (e : event) : bool :=
  match e with
  | Event InClusterConfig _ => true
  | Event (Getenv _) _ => true
  | Event (BuildConfigFromFlags _ _) _ => true
  | Event (NewForConfig _) _ => true
  | _ => false
  end.

(** The calls made through a client: reads, lists and writes of cluster
    resources. *)
Definition is_resource_call (e : event) : bool :=
  match e with
  | Event (StatefulSets_Get _ _ _) _ => true
  | Event (StatefulSets_GetScale _ _ _) _ => true
  | Event (StatefulSets_UpdateScale _ _ _ _) _ => true
  | Event (HorizontalPodAutoscalers_List _ _ _) _ => true
  | Event (Pods_List _ _ _) _ => true
  | _ => false
  end.

Definition resource_calls (t : trace) : trace := filter is_resource_call t.

(** The scale writes of a run: client, namespace, name and written value. *)
Definition update_write (e : event) :
    option (k8s.Clientset * string * string * autoscalingv1.Scale) :=
  match e with
  | Event (StatefulSets_UpdateScale c namespace name scale) _ => Some (c, namespace, name, scale)
  | _ => None
  end.

Definition update_writes (t : trace) := pick update_write t.

(** The scale values a run fetched. *)
Definition fetched_scale (e : event) : option autoscalingv1.Scale :=
  match e with
  | Event (StatefulSets_GetScale _ _ _) (Some scale, _) => Some scale
  | _ => None
  end.

Definition fetched_scales (t : trace) := pick fetched_scale t.

(** [sub] occurs in [s]. *)
Definition names (s sub : string) : Prop :=
  exists before after : string, s = (before ++ sub ++ after)%string.

(** A run that ends by sending one message after the trace [t]. *)
Definition ends_with_send {W : Type} (h : handler W) (message : call unit)
    (m : memory) (w : W) (t : trace) : outcome (unit * memory) * W * trace :=
  (Done (tt, m), snd (h _ message w), t ++ [Event message tt]).

(** The fallback chain in the spec's words: (a) in-cluster credentials,
    (b) the credentials file named by KUBECONFIG, (c) the default file under
    the user's home directory; a stage is attempted only when the one before
    it failed, and the first success gives the configuration.  A chain is
    the trace of its attempts together with what came out: a configuration,
    or the error of the last stage wrapped as a configuration error. *)
Definition home_lookup (home : string) (t : trace) : Prop :=
  (home <> "" /\ t = [Event (Getenv "HOME") home])
  \/ t = [Event (Getenv "HOME") ""; Event (Getenv "USERPROFILE") home].

Inductive fallback_chain : trace -> error + k8srest.Config -> Prop :=
| in_cluster_wins (cfg : k8srest.Config) :
    fallback_chain [Event InClusterConfig (cfg, None)] (inr cfg)
| kubeconfig_wins (c0 : k8srest.Config) (e1 : error) (path : string) (cfg : k8srest.Config) :
    fallback_chain
      [Event InClusterConfig (c0, Some e1);
       Event (Getenv "KUBECONFIG") path;
       Event (BuildConfigFromFlags "" path) (cfg, None)]
      (inr cfg)
| home_wins (c0 c1 : k8srest.Config) (e1 e2 : error) (path home : string) (lookup : trace)
    (cfg : k8srest.Config) :
    home_lookup home lookup ->
    fallback_chain
      ([Event InClusterConfig (c0, Some e1);
        Event (Getenv "KUBECONFIG") path;
        Event (BuildConfigFromFlags "" path) (c1, Some e2)]
       ++ lookup
       ++ [Event (BuildConfigFromFlags "" (home ++ "/.kube/config")) (cfg, None)])
      (inr cfg)
| all_fail (c0 c1 c2 : k8srest.Config) (e1 e2 e3 : error) (path home : string)
    (lookup : trace) :
    home_lookup home lookup ->
    fallback_chain
      ([Event InClusterConfig (c0, Some e1);
        Event (Getenv "KUBECONFIG") path;
        Event (BuildConfigFromFlags "" path) (c1, Some e2)]
       ++ lookup
       ++ [Event (BuildConfigFromFlags "" (home ++ "/.kube/config")) (c2, Some e3)])
      (inl (Errorf ("Error initializing Kubernetes config: " ++ Error e3))).

(** What a call of [getClient] made with the chain's outcome: the error
    handed back with no client and nothing built, or one construction from
    the configuration, whose two results are handed back as they are and
    whose client is stored when the error is nil. *)
Definition built_from (config : error + k8srest.Config) (build : trace)
    (result : option k8s.Clientset * option error) (before after : memory) : Prop :=
  match config with
  | inl e => build = [] /\ result = (None, Some e) /\ after = before
  | inr cfg =>
      exists clientset err,
        build = [Event (NewForConfig cfg) (clientset, err)]
        /\ result = (clientset, err)
        /\ after = match err with
                   | None => {| k8sClient := {| client := clientset |};
                                workloads := workloads before |}
                   | Some _ => before
                   end
  end.

(** The Go convention the client library keeps: a call that answers with a
    nil error answers with an object. *)
Definition no_nil_without_error {W : Type} (h : handler W) : Prop :=
  forall w,
    (forall cfg, fst (h _ (NewForConfig cfg) w) <> (None, None))
    /\ (forall c namespace opts,
          fst (h _ (HorizontalPodAutoscalers_List c namespace opts) w) <> (None, None))
    /\ (forall c namespace opts, fst (h _ (Pods_List c namespace opts) w) <> (None, None)).

(** What a call asks of the cluster: the verb, the namespace, and the name
    of the resource when the call is about one resource. *)
Inductive verb : Type :=
| get_statefulset
| get_scale
| update_scale
| list_autoscalers
| list_pods.

Definition request (e : event) : option (verb * string * option string) :=
  match e with
  | Event (StatefulSets_Get _ namespace name) _ => Some (get_statefulset, namespace, Some name)
  | Event (StatefulSets_GetScale _ namespace name) _ => Some (get_scale, namespace, Some name)
  | Event (StatefulSets_UpdateScale _ namespace name _) _ =>
      Some (update_scale, namespace, Some name)
  | Event (HorizontalPodAutoscalers_List _ namespace _) _ =>
      Some (list_autoscalers, namespace, None)
  | Event (Pods_List _ namespace _) _ => Some (list_pods, namespace, None)
  | _ => None
  end.

Definition requests (t : trace) := pick request t.

(** The errors the scale writes of a run were answered with. *)
Definition update_answer (e : event) : option (option error) :=
  match e with
  | Event (StatefulSets_UpdateScale _ _ _ _) (_, err) => Some err
  | _ => None
  end.

(** The convention of [no_nil_without_error], for the fetch of a scale. *)
Definition no_nil_scale {W : Type} (h : handler W) : Prop :=
  forall w c namespace name,
    fst (h _ (StatefulSets_GetScale c namespace name) w) <> (None, None).

(** ** A scripted cluster

    One concrete world to run the package against: a cluster described by a
    few fields, whose handler answers every call from them. *)

(** ASCII instances of the two [strings] functions (they agree with Go's on
    ASCII text), and a selector formatter that prints the match labels. *)
Definition lower_ascii (a : ascii) : ascii :=
  let n := nat_of_ascii a in
  if (65 <=? n)%nat && (n <=? 90)%nat then ascii_of_nat (n + 32) else a.

Fixpoint ToLower_ascii (s : string) : string :=
  match s with
  | EmptyString => EmptyString
  | String a rest => String (lower_ascii a) (ToLower_ascii rest)
  end.

Definition EqualFold_ascii (s t : string) : bool :=
  String.eqb (ToLower_ascii s) (ToLower_ascii t).

Fixpoint format_labels (labels : list (string * string)) : string :=
  match labels with
  | [] => ""
  | [(k, v)] => k ++ "=" ++ v
  | (k, v) :: rest => k ++ "=" ++ v ++ "," ++ format_labels rest
  end.

Definition FormatLabelSelector_labels (selector : option metav1.LabelSelector) : string :=
  match selector with
  | None => "<none>"
  | Some s => format_labels (metav1.MatchLabels s)
  end.

Record cluster : Type :=
  { in_cluster : bool;
    environ : list (string * string);
    kubeconfigs : list string;
    statefulsets : list appsv1.StatefulSet;
    quiet_get : bool;
    replicas_now : Z;
    update_fails : bool;
    autoscalers : list autoscalingv1.HorizontalPodAutoscaler;
    pods_now : list corev1.Pod }.

Fixpoint lookup_env (key : string) (env : list (string * string)) : string :=
  match env with
  | [] => ""
  | (k, v) :: rest => if String.eqb k key then v else lookup_env key rest
  end.

Definition find_statefulset (namespace name : string) (l : list appsv1.StatefulSet) :
    option appsv1.StatefulSet :=
  find (fun s => String.eqb (metav1.Namespace (appsv1.ObjectMeta s)) namespace
                 && String.eqb (metav1.Name (appsv1.ObjectMeta s)) name) l.

Definition scale_of (namespace name : string) (replicas : Z) : autoscalingv1.Scale :=
  {| autoscalingv1.ObjectMeta :=
       {| metav1.Name := name; metav1.Namespace := namespace; metav1.ResourceVersion := "1" |};
     autoscalingv1.Spec := {| autoscalingv1.Replicas := replicas |};
     autoscalingv1.Status :=
       {| autoscalingv1.StatusReplicas := replicas; autoscalingv1.Selector := "app=agent" |} |}.

Definition set_replicas_now (w : cluster) (replicas : Z) : cluster :=
  {| in_cluster := in_cluster w;
     environ := environ w;
     kubeconfigs := kubeconfigs w;
     statefulsets := statefulsets w;
     quiet_get := quiet_get w;
     replicas_now := replicas;
     update_fails := update_fails w;
     autoscalers := autoscalers w;
     pods_now := pods_now w |}.

Definition scripted : handler cluster :=
  fun X c =>
    match c in call X return cluster -> X * cluster with
    | InClusterConfig => fun w =>
        (if in_cluster w
         then ({| k8srest.config_id := 1 |}, None)
         else ({| k8srest.config_id := 0 |},
               Some (libraryError 1 "unable to load in-cluster configuration")), w)
    | Getenv key => fun w => (lookup_env key (environ w), w)
    | BuildConfigFromFlags _ path => fun w =>
        (if existsb (String.eqb path) (kubeconfigs w)
         then ({| k8srest.config_id := 2 |}, None)
         else ({| k8srest.config_id := 0 |},
               Some (libraryError 2 "invalid configuration: no configuration has been provided")),
         w)
    | NewForConfig cfg => fun w =>
        ((Some {| k8s.clientset_id := k8srest.config_id cfg |}, None), w)
    | StatefulSets_Get _ namespace name => fun w =>
        (match find_statefulset namespace name (statefulsets w) with
         | Some s => (Some s, None)
         | None =>
             if quiet_get w then (None, None)
             else (None, Some (libraryError 404 "statefulsets.apps not found"))
         end, w)
    | StatefulSets_GetScale _ namespace name => fun w =>
        ((Some (scale_of namespace name (replicas_now w)), None), w)
    | StatefulSets_UpdateScale _ _ _ scale => fun w =>
        if update_fails w
        then ((None, Some (libraryError 409 "the object has been modified")), w)
        else ((Some scale, None),
              set_replicas_now w (autoscalingv1.Replicas (autoscalingv1.Spec scale)))
    | HorizontalPodAutoscalers_List _ _ _ => fun w =>
        ((Some {| autoscalingv1.Items := autoscalers w |}, None), w)
    | Pods_List _ _ _ => fun w =>
        ((Some {| corev1.Items := pods_now w |}, None), w)
    | Send_WorkloadReturn _ _ => fun w => (tt, w)
    | Send_error _ _ => fun w => (tt, w)
    | Send_Pods _ _ => fun w => (tt, w)
    end.

Arguments scripted : clear implicits.

(** A pod in the cluster, three autoscalers and the agents' StatefulSet. *)
Definition meta (namespace name : string) : metav1.ObjectMeta :=
  {| metav1.Name := name; metav1.Namespace := namespace; metav1.ResourceVersion := "1" |}.

Definition hpa_for (kind name : string) : autoscalingv1.HorizontalPodAutoscaler :=
  {| autoscalingv1.hpa_ObjectMeta := meta "ns" (name ++ "-hpa");
     autoscalingv1.hpa_Spec :=
       {| autoscalingv1.ScaleTargetRef :=
            {| autoscalingv1.Kind := kind;
               autoscalingv1.Name := name;
               autoscalingv1.APIVersion := "apps/v1" |};
          autoscalingv1.MinReplicas := Some 1%Z;
          autoscalingv1.MaxReplicas := 10%Z |} |}.

Definition agents : appsv1.StatefulSet :=
  {| appsv1.ObjectMeta := meta "ns" "agents";
     appsv1.Selector := Some {| metav1.MatchLabels := [("app", "agent")] |};
     appsv1.Replicas := Some 3%Z |}.

Definition agent_pod (name : string) : corev1.Pod :=
  {| corev1.ObjectMeta := meta "ns" name; corev1.Phase := "Running" |}.

(** In a pod of the cluster, three replicas, no autoscaler on the agents. *)
Definition in_pod : cluster :=
  {| in_cluster := true;
     environ := [];
     kubeconfigs := [];
     statefulsets := [agents];
     quiet_get := false;
     replicas_now := 3;
     update_fails := false;
     autoscalers := [hpa_for "Deployment" "foo"; hpa_for "Deployment" "bar";
                     hpa_for "statefulset" "target"];
     pods_now := [agent_pod "agents-0"; agent_pod "agents-1"; agent_pod "agents-2"] |}.

(** On a workstation with nothing configured: every stage fails. *)
Definition unconfigured : cluster :=
  {| in_cluster := false;
     environ := [("HOME", "/home/dev")];
     kubeconfigs := [];
     statefulsets := [];
     quiet_get := false;
     replicas_now := 0;
     update_fails := false;
     autoscalers := [];
     pods_now := [] |}.

(** On a workstation whose kubeconfig is at the default place. *)
Definition workstation : cluster :=
  {| in_cluster := false;
     environ := [("HOME", "/home/dev")];
     kubeconfigs := ["/home/dev/.kube/config"];
     statefulsets := [agents];
     quiet_get := false;
     replicas_now := 3;
     update_fails := false;
     autoscalers := [];
     pods_now := [agent_pod "agents-0"] |}.

(** The pod's cluster, answering a fetch of what is not there with no
    object and no error. *)
Definition quiet : cluster :=
  {| in_cluster := true;
     environ := [];
     kubeconfigs := [];
     statefulsets := [agents];
     quiet_get := true;
     replicas_now := 3;
     update_fails := false;
     autoscalers := [];
     pods_now := [] |}.

(** The caller's memory: nothing cached, the resolved descriptor of the
    agents at address 0 and a Deployment's at every other address. *)
Definition agents_workload : Workload :=
  {| Kind := "StatefulSet"; Namespace := "ns"; Name := "agents";
     PodSelector := Some {| metav1.MatchLabels := [("app", "agent")] |} |}.

Definition web_workload : Workload :=
  {| Kind := "Deployment"; Namespace := "ns"; Name := "web"; PodSelector := None |}.

Definition fresh : memory :=
  {| k8sClient := {| client := None |};
     workloads := fun p => match p with O => agents_workload | _ => web_workload end |}.

Definition results : chan := {| chan_id := 7 |}.

(** In the pod, the client is built from the in-cluster configuration. *)
Definition pod_client : k8s.Clientset := {| k8s.clientset_id := 1 |}.

Definition pod_setup : trace :=
  [Event InClusterConfig ({| k8srest.config_id := 1 |}, None);
   Event (NewForConfig {| k8srest.config_id := 1 |}) (Some pod_client, None)].

Definition cached (c : k8s.Clientset) : memory :=
  {| k8sClient := {| client := Some c |}; workloads := workloads fresh |}.

(** The pod's cluster with its autoscalers listed the other way round. *)
Definition in_pod_reversed : cluster :=
  {| in_cluster := true;
     environ := [];
     kubeconfigs := [];
     statefulsets := [agents];
     quiet_get := false;
     replicas_now := 3;
     update_fails := false;
     autoscalers := rev (autoscalers in_pod);
     pods_now := pods_now in_pod |}.

(** A cluster that refuses to list: the scripted answers, but for the two
    list calls, which come back with an object and an error. *)
Definition refusing : handler cluster :=
  fun X c =>
    match c in call X return cluster -> X * cluster with
    | HorizontalPodAutoscalers_List _ _ _ => fun w =>
        ((Some {| autoscalingv1.Items := autoscalers w |},
          Some (libraryError 403 "horizontalpodautoscalers.autoscaling is forbidden")), w)
    | Pods_List _ _ _ => fun w =>
        ((Some {| corev1.Items := [] |}, Some (libraryError 403 "pods is forbidden")), w)
    | c' => scripted _ c'
    end.

Arguments refusing : clear implicits.

(** The pod's cluster when every scale write is turned down. *)
Definition contended : cluster :=
  {| in_cluster := true;
     environ := [];
     kubeconfigs := [];
     statefulsets := [agents];
     quiet_get := false;
     replicas_now := 3;
     update_fails := true;
     autoscalers := [];
     pods_now := [] |}.

(** * Properties *)

(** ** Texts *)

Lemma append_empty_r (s : string) : (s ++ "")%string = s.
Proof. induction s as [|a s IH]; simpl; [reflexivity|]. rewrite IH. reflexivity. Qed.

Lemma append_assoc (a b c : string) : ((a ++ b) ++ c)%string = (a ++ b ++ c)%string.
Proof. induction a as [|x a IH]; simpl; [reflexivity|]. rewrite IH. reflexivity. Qed.

Lemma names_inside (before sub after : string) : names (before ++ sub ++ after) sub.
Proof. exists before, after. reflexivity. Qed.

Lemma names_last (before sub : string) : names (before ++ sub) sub.
Proof. exists before, ""%string. rewrite append_empty_r. reflexivity. Qed.

(** ** Running sequences *)

Lemma pick_app {A B : Type} (f : A -> option B) (l1 l2 : list A) :
  pick f (l1 ++ l2) = pick f l1 ++ pick f l2.
Proof.
  induction l1 as [|a l1 IH]; simpl; [reflexivity|].
  destruct (f a); simpl; rewrite IH; reflexivity.
Qed.

Lemma sends_app (t1 t2 : trace) : sends (t1 ++ t2) = sends t1 + sends t2.
Proof. unfold sends. rewrite filter_app, length_app. reflexivity. Qed.

Lemma run_pbind {W A B : Type} (h : handler W) (p : prog A) (f : A -> prog B) (w : W) :
  run h (pbind p f) w =
  match run h p w with
  | (Done a, w1, t1) => let '(o, w2, t2) := run h (f a) w1 in (o, w2, t1 ++ t2)
  | (Panicked, w1, t1) => (Panicked, w1, t1)
  end.
Proof.
  revert w. induction p as [a| |X c k IH]; intro w; simpl.
  - destruct (run h (f a) w) as [[o w2] t2]. reflexivity.
  - reflexivity.
  - destruct (h X c w) as [x w1]. rewrite IH.
    destruct (run h (k x) w1) as [[[a|] w2] t1]; [|reflexivity].
    destruct (run h (f a) w2) as [[o w3] t2]. reflexivity.
Qed.

Lemma run_bind {W A B : Type} (h : handler W) (c : M A) (f : A -> M B) (m : memory) (w : W) :
  run h (bind c f m) w =
  match run h (c m) w with
  | (Done (a, m1), w1, t1) => let '(o, w2, t2) := run h (f a m1) w1 in (o, w2, t1 ++ t2)
  | (Panicked, w1, t1) => (Panicked, w1, t1)
  end.
Proof.
  unfold bind. rewrite run_pbind.
  destruct (run h (c m) w) as [[[[a m1]|] w1] t1]; reflexivity.
Qed.

(** ** The client provider *)

(** Unfolding the package's monad down to programs. *)
Ltac unfold_go :=
  unfold bind, ret, panic, do, nonnil, field, load_client, store_client in *.

(** Let the handler answer the next call of the run in the goal, and name
    the answer. *)
Ltac answer_as h x :=
  match goal with
  | |- context [?g ?X ?c ?w] =>
      constr_eq g h;
      let w' := fresh "w" in
      let Hx := fresh "H" x in
      destruct (h X c w) as [x w'] eqn:Hx; simpl
  end.

Tactic Notation "answer" constr(h) "as" ident(x) := answer_as h x.

Lemma getClient_cached (m : memory) (c : k8s.Clientset) :
  client (k8sClient m) = Some c -> getClient m = Ret ((Some c, None), m).
Proof.
  intro H. unfold getClient. unfold_go. simpl. rewrite H. reflexivity.
Qed.

(** What every call of [getClient] does, whatever the world answers: it
    returns, only talks to the configuration and construction calls, leaves
    the workloads alone, stores nothing when it fails and stores what it
    returns when it succeeds. *)
Ltac getClient_case :=
  do 5 eexists; (split; [reflexivity|]); repeat split; try congruence;
  intros; subst;
  match goal with
  | H : _ = (None, None, _) |- _ => do 2 eexists; rewrite H; reflexivity
  end.

Lemma getClient_returns {W : Type} (h : handler W) (m : memory) (w : W) :
  exists c e m1 w1 t1,
    run h (getClient m) w = (Done ((c, e), m1), w1, t1)
    /\ forallb is_client_setup t1 = true
    /\ workloads m1 = workloads m
    /\ (e <> None -> m1 = m /\ client (k8sClient m) = None)
    /\ (e = None -> client (k8sClient m1) = c)
    /\ (e = None -> c = None ->
        exists cfg w0, fst (h _ (NewForConfig cfg) w0) = (None, None)).
Proof.
  destruct (client (k8sClient m)) as [c|] eqn:Hc.
  - rewrite (getClient_cached m Hc). simpl.
    getClient_case.
  - unfold getClient. unfold_go. simpl. rewrite Hc. simpl.
    answer h as a. destruct a as [cfg [e1|]]; simpl.
    + answer h as path. answer h as b. destruct b as [cfg2 [e2|]]; simpl.
      * answer h as home. destruct (String.eqb home "") eqn:Hempty; simpl.
        -- answer h as profile. answer h as d. destruct d as [cfg3 [e3|]]; simpl.
           ++ getClient_case.
           ++ answer h as n. destruct n as [cs [e4|]]; simpl;
                getClient_case.
        -- answer h as d. destruct d as [cfg3 [e3|]]; simpl.
           ++ getClient_case.
           ++ answer h as n. destruct n as [cs [e4|]]; simpl;
                getClient_case.
      * answer h as n. destruct n as [cs [e4|]]; simpl;
          getClient_case.
    + answer h as n. destruct n as [cs [e4|]]; simpl;
        getClient_case.
Qed.

Lemma setup_only (t : trace) :
  forallb is_client_setup t = true ->
  sends t = 0
  /\ resource_calls t = []
  /\ update_writes t = []
  /\ fetched_scales t = []
  /\ pick workload_message t = []
  /\ pick error_message t = []
  /\ pick pods_message t = [].
Proof.
  unfold sends, resource_calls, update_writes, fetched_scales.
  induction t as [|[X c x] t IH]; simpl; [repeat split; reflexivity|].
  intro H. apply andb_true_iff in H. destruct H as [Hc Ht].
  specialize (IH Ht). destruct c; simpl in *; try discriminate; exact IH.
Qed.

(** The facts of [getClient_returns], for a run whose result is known. *)
Lemma getClient_run_facts {W : Type} (h : handler W) (m : memory) (w : W)
    c e m1 w1 t1 :
  run h (getClient m) w = (Done ((c, e), m1), w1, t1) ->
  forallb is_client_setup t1 = true
  /\ workloads m1 = workloads m
  /\ (e <> None -> m1 = m /\ client (k8sClient m) = None)
  /\ (e = None -> client (k8sClient m1) = c)
  /\ (e = None -> c = None ->
      exists cfg w0, fst (h _ (NewForConfig cfg) w0) = (None, None)).
Proof.
  intro Hrun.
  destruct (getClient_returns h m w) as (c' & e' & m1' & w1' & t1' & Hrun' & Hfacts).
  rewrite Hrun in Hrun'. injection Hrun' as -> -> -> -> ->. exact Hfacts.
Qed.

(** With nothing cached, [getClient] runs the chain and builds from it. *)
Lemma getClient_uncached {W : Type} (h : handler W) (m : memory) (w : W) :
  client (k8sClient m) = None ->
  exists result m1 w1 stages build,
    run h (getClient m) w = (Done (result, m1), w1, stages ++ build)
    /\ exists config,
         fallback_chain stages config /\ built_from config build result m m1.
Proof.
  intro Hc. unfold getClient. unfold_go. simpl. rewrite Hc. simpl.
  answer h as a. destruct a as [cfg [e1|]]; simpl.
  - answer h as path. answer h as b. destruct b as [cfg2 [e2|]]; simpl.
    + answer h as home. destruct (String.eqb home "") eqn:Hempty; simpl.
      * apply String.eqb_eq in Hempty. subst home.
        answer h as profile. answer h as d. destruct d as [cfg3 [e3|]]; simpl.
        -- eexists (None, Some (Errorf _)), m, _.
           eexists (_ :: _ :: _ :: _ :: _ :: _ :: nil), nil.
           split; [reflexivity|]. eexists. split.
           ++ eapply all_fail with (lookup := [_; _]). right. reflexivity.
           ++ simpl. auto.
        -- answer h as n. destruct n as [cs err]. simpl.
           eexists (cs, err),
             (match err with
              | None => {| k8sClient := {| client := cs |}; workloads := workloads m |}
              | Some _ => m
              end), _.
           eexists (_ :: _ :: _ :: _ :: _ :: _ :: nil), (_ :: nil).
           split; [destruct err; reflexivity|]. eexists. split.
           ++ eapply home_wins with (lookup := [_; _]). right. reflexivity.
           ++ simpl. do 2 eexists. repeat split.
      * apply String.eqb_neq in Hempty.
        answer h as d. destruct d as [cfg3 [e3|]]; simpl.
        -- eexists (None, Some (Errorf _)), m, _.
           eexists (_ :: _ :: _ :: _ :: _ :: nil), nil.
           split; [reflexivity|]. eexists. split.
           ++ eapply all_fail with (lookup := [_]). left. split; [exact Hempty|reflexivity].
           ++ simpl. auto.
        -- answer h as n. destruct n as [cs err]. simpl.
           eexists (cs, err),
             (match err with
              | None => {| k8sClient := {| client := cs |}; workloads := workloads m |}
              | Some _ => m
              end), _.
           eexists (_ :: _ :: _ :: _ :: _ :: nil), (_ :: nil).
           split; [destruct err; reflexivity|]. eexists. split.
           ++ eapply home_wins with (lookup := [_]). left. split; [exact Hempty|reflexivity].
           ++ simpl. do 2 eexists. repeat split.
    + answer h as n. destruct n as [cs err]. simpl.
      eexists (cs, err),
             (match err with
              | None => {| k8sClient := {| client := cs |}; workloads := workloads m |}
              | Some _ => m
              end), _. eexists (_ :: _ :: _ :: nil), (_ :: nil).
      split; [destruct err; reflexivity|]. eexists. split.
      * apply kubeconfig_wins.
      * simpl. do 2 eexists. repeat split.
  - answer h as n. destruct n as [cs err]. simpl.
    eexists (cs, err),
             (match err with
              | None => {| k8sClient := {| client := cs |}; workloads := workloads m |}
              | Some _ => m
              end), _. eexists (_ :: nil), (_ :: nil).
    split; [destruct err; reflexivity|]. eexists. split.
    + apply in_cluster_wins.
    + simpl. do 2 eexists. repeat split.
Qed.

(** C5.  With no client cached, [getClient] attempts the configuration
    stages in the fixed order in-cluster, KUBECONFIG file, default file under
    the home directory (HOME, or USERPROFILE when HOME is empty), each later
    stage only after the one before it failed, and builds the client from
    the configuration of the first stage that succeeded. *)
Theorem getClient_fallback_order {W : Type} (h : handler W) (w : W)
    (descriptors : address -> Workload) :
  let m := {| k8sClient := {| client := None |}; workloads := descriptors |} in
  exists result m1 w1 stages build config,
    run h (getClient m) w = (Done (result, m1), w1, stages ++ build)
    /\ fallback_chain stages config
    /\ built_from config build result m m1.
Proof.
  intro m.
  destruct (getClient_uncached h m w eq_refl)
    as (result & m1 & w1 & stages & build & Hrun & config & Hchain & Hbuilt).
  exists result, m1, w1, stages, build, config. auto.
Qed.

(** C6.  A call of [getClient] that returns a non-nil error leaves the
    stored client unset, so that the next call, in whatever world, runs the
    whole fallback chain again; a call that returns a handle with a nil
    error has stored that handle, and every call made while it is stored
    returns it with a nil error, makes no call at all and leaves the memory
    as it is. *)
Theorem getClient_caches_success_only {W : Type} (h : handler W) (w : W) (m : memory)
    (c : option k8s.Clientset) (e : option error) (m1 : memory) (w1 : W) (t1 : trace) :
  run h (getClient m) w = (Done ((c, e), m1), w1, t1) ->
  (e <> None ->
     client (k8sClient m1) = None
     /\ forall (W' : Type) (h' : handler W') (w' : W'),
          exists result m2 w2 stages build config,
            run h' (getClient m1) w' = (Done (result, m2), w2, stages ++ build)
            /\ fallback_chain stages config
            /\ built_from config build result m1 m2)
  /\
  (forall handle, c = Some handle -> e = None ->
     client (k8sClient m1) = Some handle
     /\ forall (W' : Type) (h' : handler W') (w' : W') (m2 : memory),
          client (k8sClient m2) = Some handle ->
          run h' (getClient m2) w' = (Done ((Some handle, None), m2), w', [])).
Proof.
  intro Hrun.
  destruct (getClient_run_facts _ _ _ Hrun) as (_ & _ & Hfail & Hok & _).
  split.
  - intro He. destruct (Hfail He) as [-> Hunset]. split; [exact Hunset|].
    intros W' h' w'.
    destruct (getClient_uncached h' m w' Hunset)
      as (result & m2 & w2 & stages & build & Hrun' & config & Hchain & Hbuilt).
    exists result, m2, w2, stages, build, config. auto.
  - intros handle -> He. split; [exact (Hok He)|].
    intros W' h' w' m2 Hcached. rewrite (getClient_cached m2 Hcached). reflexivity.
Qed.

(** ** The scaler *)

Section Scaler.

Variable EqualFold : string -> string -> bool.

(** C1.  For a workload of a supported kind and any desired replica count,
    once the client is acquired [Scale] first fetches the scale sub-resource
    of the workload's name in its namespace.  When the fetched replica count
    already equals the desired one it returns nil and the run has no update
    write; otherwise it sets the count on the fetched value, issues exactly
    one update write with it, and returns that update's error as it is. *)
Theorem Scale_read_check_write {W : Type} (h : handler W) (w : W) (m : memory)
    (resource : address) (replicas : Z)
    (c : k8s.Clientset) (m1 : memory) (w1 : W) (t1 : trace)
    (scale : autoscalingv1.Scale) (w2 : W) :
  let namespace := Namespace (workloads m resource) in
  let name := Name (workloads m resource) in
  let fetch := StatefulSets_GetScale c namespace name in
  let update := StatefulSets_UpdateScale c namespace name
                  (autoscalingv1.set_Replicas scale replicas) in
  EqualFold (Kind (workloads m resource)) "StatefulSet" = true ->
  run h (getClient m) w = (Done ((Some c, None), m1), w1, t1) ->
  h _ fetch w1 = ((Some scale, None), w2) ->
  (autoscalingv1.Replicas (autoscalingv1.Spec scale) = replicas ->
     run h (Scale EqualFold (Some resource) replicas m) w
     = (Done (None, m1), w2, t1 ++ [Event fetch (Some scale, None)])
     /\ update_writes (t1 ++ [Event fetch (Some scale, None)]) = [])
  /\
  (autoscalingv1.Replicas (autoscalingv1.Spec scale) <> replicas ->
     forall written err w3,
       h _ update w2 = ((written, err), w3) ->
       let t := t1 ++ [Event fetch (Some scale, None); Event update (written, err)] in
       run h (Scale EqualFold (Some resource) replicas m) w = (Done (err, m1), w3, t)
       /\ update_writes t
          = [(c, namespace, name, autoscalingv1.set_Replicas scale replicas)]
       /\ autoscalingv1.Replicas
            (autoscalingv1.Spec (autoscalingv1.set_Replicas scale replicas)) = replicas).
Proof.
  intros namespace name fetch update Hkind Hget Hfetch.
  destruct (getClient_run_facts _ _ _ Hget) as (Hsetup & Hw & _).
  destruct (setup_only _ Hsetup) as (_ & _ & Hupd & _).
  assert (Hrun : run h (Scale EqualFold (Some resource) replicas m) w
                 = let '(o, w', t) :=
                     (if Z.eqb (autoscalingv1.Replicas (autoscalingv1.Spec scale)) replicas
                      then (Done (None, m1), w2, [Event fetch (Some scale, None)])
                      else let '(x, w3) := h _ update w2 in
                           (Done (snd x, m1), w3,
                            [Event fetch (Some scale, None); Event update x]))
                   in (o, w', t1 ++ t)).
  { unfold Scale. rewrite run_bind, Hget. unfold_go. simpl.
    rewrite Hw, Hkind. simpl. rewrite !Hw. fold namespace name fetch.
    rewrite Hfetch. simpl.
    destruct (Z.eqb _ replicas); simpl; [reflexivity|].
    rewrite !Hw. fold namespace name update.
    destruct (h _ update w2) as [[written err] w3]. reflexivity. }
  split.
  - intro Heq. apply Z.eqb_eq in Heq. rewrite Heq in Hrun. split; [exact Hrun|].
    unfold update_writes in *. rewrite pick_app, Hupd. reflexivity.
  - intros Hneq written err w3 Hupdate t. apply Z.eqb_neq in Hneq.
    rewrite Hneq, Hupdate in Hrun. split; [exact Hrun|]. split; [|reflexivity].
    unfold t, update_writes in *. rewrite pick_app, Hupd. reflexivity.
Qed.

(** Every path of [Scale] on the descriptor at an address, laid out along
    the answers of the world. *)
Lemma Scale_paths {W : Type} (h : handler W) (w : W) (m : memory)
    (resource : address) (replicas : Z) :
  exists c e m1 w1 t1,
    run h (getClient m) w = (Done ((c, e), m1), w1, t1)
    /\ run h (Scale EqualFold (Some resource) replicas m) w =
       let workload := workloads m resource in
       match e with
       | Some err => (Done (Some err, m1), w1, t1)
       | None =>
           if EqualFold (Kind workload) "StatefulSet" then
             match c with
             | None => (Panicked, w1, t1)
             | Some c =>
                 let fetch := StatefulSets_GetScale c (Namespace workload) (Name workload) in
                 let '(fetched, w2) := h _ fetch w1 in
                 match fetched with
                 | (_, Some err) => (Done (Some err, m1), w2, t1 ++ [Event fetch fetched])
                 | (None, None) => (Panicked, w2, t1 ++ [Event fetch fetched])
                 | (Some scale, None) =>
                     if Z.eqb (autoscalingv1.Replicas (autoscalingv1.Spec scale)) replicas
                     then (Done (None, m1), w2, t1 ++ [Event fetch fetched])
                     else
                       let update :=
                         StatefulSets_UpdateScale c (Namespace workload) (Name workload)
                           (autoscalingv1.set_Replicas scale replicas) in
                       let '(written, w3) := h _ update w2 in
                       (Done (snd written, m1), w3,
                        t1 ++ [Event fetch fetched; Event update written])
                 end
             end
           else
             (Done (Some (Errorf ("Resource kind " ++ Kind workload ++ " is not implemented")),
                    m1), w1, t1)
       end.
Proof.
  destruct (getClient_returns h m w) as (c & e & m1 & w1 & t1 & Hget & _ & Hw & _).
  exists c, e, m1, w1, t1. split; [exact Hget|].
  unfold Scale. rewrite run_bind, Hget. unfold_go. simpl.
  destruct e as [err|]; simpl; [rewrite app_nil_r; reflexivity|].
  rewrite !Hw. destruct (EqualFold _ "StatefulSet"); simpl.
  - destruct c as [c|]; simpl; [|rewrite app_nil_r; reflexivity].
    rewrite !Hw. answer h as fetched. destruct fetched as [[scale|] [err|]]; simpl;
      try reflexivity.
    destruct (Z.eqb _ replicas); simpl; [reflexivity|].
    rewrite !Hw. answer h as written. destruct written as [written err]. reflexivity.
  - rewrite !Hw, app_nil_r. reflexivity.
Qed.

(** [Scale] on a nil pointer: the acquisition error when there is one, and a
    panic at [resource.Kind] otherwise. *)
Lemma Scale_nil {W : Type} (h : handler W) (w : W) (m : memory) (replicas : Z) :
  exists c e m1 w1 t1,
    run h (getClient m) w = (Done ((c, e), m1), w1, t1)
    /\ run h (Scale EqualFold None replicas m) w =
       match e with
       | Some err => (Done (Some err, m1), w1, t1)
       | None => (Panicked, w1, t1)
       end.
Proof.
  destruct (getClient_returns h m w) as (c & e & m1 & w1 & t1 & Hget & _).
  exists c, e, m1, w1, t1. split; [exact Hget|].
  unfold Scale. rewrite run_bind, Hget. unfold_go. simpl.
  destruct e as [err|]; simpl; rewrite app_nil_r; reflexivity.
Qed.

(** C2, as the code has it.  For a kind that [EqualFold] does not match with
    "StatefulSet": [GetK8sWorkload] makes one call only, the send of the
    unsupported-kind error on its channel, and leaves the memory as it was;
    [Scale] acquires the client first, as [getClient] does, hands back the
    acquisition error when there is one and the unsupported-kind error
    otherwise, and makes no call on a cluster resource. *)
Theorem unsupported_kind {W : Type} (h : handler W) (w : W) (m : memory) :
  (forall channel kind namespace name,
     EqualFold kind "StatefulSet" = false ->
     let message :=
       Send_WorkloadReturn channel
         (GetWorkloadReturn None
            (Some (Errorf ("Resource kind " ++ kind ++ " is not implemented")))) in
     run h (GetK8sWorkload EqualFold channel kind namespace name m) w
     = (Done (tt, m), snd (h _ message w), [Event message tt]))
  /\
  (forall (resource : address) replicas,
     EqualFold (Kind (workloads m resource)) "StatefulSet" = false ->
     exists c e m1 w1 t1,
       run h (getClient m) w = (Done ((c, e), m1), w1, t1)
       /\ run h (Scale EqualFold (Some resource) replicas m) w
          = (Done (match e with
                   | Some err => Some err
                   | None =>
                       Some (Errorf ("Resource kind " ++ Kind (workloads m resource)
                                       ++ " is not implemented"))
                   end, m1), w1, t1)
       /\ forallb is_client_setup t1 = true
       /\ resource_calls t1 = []).
Proof.
  split.
  - intros channel kind namespace name Hkind message.
    unfold GetK8sWorkload. rewrite Hkind. unfold_go. fold message. cbn [run].
    destruct (h unit message w) as [[] w']. reflexivity.
  - intros resource replicas Hkind.
    destruct (Scale_paths h w m resource replicas) as (c & e & m1 & w1 & t1 & Hget & Hrun).
    exists c, e, m1, w1, t1. split; [exact Hget|].
    destruct (getClient_run_facts _ _ _ Hget) as (Hsetup & _).
    destruct (setup_only _ Hsetup) as (_ & Hres & _).
    simpl in Hrun. rewrite Hkind in Hrun. rewrite Hrun.
    repeat split; try assumption. destruct e; reflexivity.
Qed.

(** C9.  Whatever the pointer passed, the kind of the workload and the
    desired count, a call of [Scale] that returns leaves every workload
    descriptor as it was, the one passed included, field by field.  What it
    changes is the fetched scale value: every update write of the run
    carries a scale fetched in the same run with its replica count set to
    the desired one and nothing else changed. *)
Theorem Scale_leaves_workload {W : Type} (h : handler W) (w : W) (m : memory)
    (resource : WorkloadPtr) (replicas : Z) (e : option error) (m' : memory)
    (w' : W) (t : trace) :
  run h (Scale EqualFold resource replicas m) w = (Done (e, m'), w', t) ->
  workloads m' = workloads m
  /\ (forall a : address,
        Kind (workloads m' a) = Kind (workloads m a)
        /\ Namespace (workloads m' a) = Namespace (workloads m a)
        /\ Name (workloads m' a) = Name (workloads m a)
        /\ PodSelector (workloads m' a) = PodSelector (workloads m a))
  /\ forall c namespace name written,
       In (c, namespace, name, written) (update_writes t) ->
       exists scale,
         In scale (fetched_scales t)
         /\ written = autoscalingv1.set_Replicas scale replicas
         /\ autoscalingv1.ObjectMeta written = autoscalingv1.ObjectMeta scale
         /\ autoscalingv1.Status written = autoscalingv1.Status scale.
Proof.
  intro Hrun.
  assert (Hm : workloads m' = workloads m /\
               (update_writes t = [] \/
                exists c0 namespace name scale,
                  update_writes t
                  = [(c0, namespace, name, autoscalingv1.set_Replicas scale replicas)]
                  /\ In scale (fetched_scales t))).
  { destruct resource as [resource|].
    2:{ destruct (Scale_nil h w m replicas) as (c & e1 & m1 & w1 & t1 & Hget & Hpaths).
        destruct (getClient_run_facts _ _ _ Hget) as (Hsetup & Hw & _).
        destruct (setup_only _ Hsetup) as (_ & _ & Hupd & _).
        rewrite Hrun in Hpaths. destruct e1 as [err|]; [|discriminate].
        injection Hpaths as -> -> -> ->. auto. }
    destruct (Scale_paths h w m resource replicas)
      as (c & e1 & m1 & w1 & t1 & Hget & Hpaths).
    destruct (getClient_run_facts _ _ _ Hget) as (Hsetup & Hw & _).
    destruct (setup_only _ Hsetup) as (_ & _ & Hupd & Hfetched & _).
    rewrite Hrun in Hpaths. simpl in Hpaths.
    unfold update_writes, fetched_scales in *.
    destruct e1 as [err|].
    { injection Hpaths as -> -> -> ->. auto. }
    destruct (EqualFold _ "StatefulSet").
    2:{ injection Hpaths as -> -> -> ->. auto. }
    destruct c as [c|]; [|discriminate].
    destruct (h _ (StatefulSets_GetScale c _ _) w1) as [[[scale|] [err|]] w2];
      try discriminate.
    - injection Hpaths as -> -> -> ->. split; [exact Hw|]. left.
      rewrite pick_app, Hupd. reflexivity.
    - destruct (Z.eqb _ replicas).
      + injection Hpaths as -> -> -> ->. split; [exact Hw|]. left.
        rewrite pick_app, Hupd. reflexivity.
      + destruct (h _ (StatefulSets_UpdateScale c _ _ _) w2) as [written w3].
        injection Hpaths as -> -> -> ->. split; [exact Hw|]. right.
        do 4 eexists. rewrite !pick_app, Hupd, Hfetched. simpl. auto.
    - injection Hpaths as -> -> -> ->. split; [exact Hw|]. left.
      rewrite pick_app, Hupd. reflexivity. }
  destruct Hm as [Hw Hwrites]. split; [exact Hw|]. split.
  { intro a. rewrite Hw. repeat split. }
  intros c0 namespace name written Hin.
  destruct Hwrites as [Hnone | (c1 & ns & nm & scale & Hone & Hscale)].
  - rewrite Hnone in Hin. destruct Hin.
  - rewrite Hone in Hin. destruct Hin as [Heq | []].
    injection Heq as _ _ _ <-. exists scale. repeat split; assumption || reflexivity.
Qed.

End Scaler.

(** ** The asynchronous operations *)

Lemma run_send {W : Type} (h : handler W) (message : call unit) (m : memory) (w : W) :
  run h (do message m) w = ends_with_send h message m w [].
Proof.
  unfold do, ends_with_send. cbn [run]. destruct (h unit message w) as [[] w']. reflexivity.
Qed.

Section Asynchronous.

Variable EqualFold : string -> string -> bool.
Variable ToLower : string -> string.
Variable FormatLabelSelector : option metav1.LabelSelector -> string.

Lemma range_hpas_run {W : Type} (h : handler W) (channel : chan) (kind name : string)
    (items : list autoscalingv1.HorizontalPodAutoscaler) (m : memory) (w : W) :
  run h (range_hpas EqualFold ToLower channel kind name items m) w =
  match find (targets EqualFold kind name) items with
  | Some _ =>
      (Done (true, m), snd (h _ (conflict ToLower channel kind name) w),
       [Event (conflict ToLower channel kind name) tt])
  | None => (Done (false, m), w, [])
  end.
Proof.
  induction items as [|hpa rest IH]; [reflexivity|].
  cbn [range_hpas find]. fold (targets EqualFold kind name hpa).
  destruct (targets EqualFold kind name hpa); [|exact IH].
  unfold_go. fold (conflict ToLower channel kind name). cbn [run pbind fst snd].
  destruct (h unit (conflict ToLower channel kind name) w) as [[] w']. reflexivity.
Qed.

Lemma find_first {A : Type} (f : A -> bool) (before : list A) (a : A) (after : list A) :
  (forall x, In x before -> f x = false) -> f a = true ->
  find f (before ++ a :: after) = Some a.
Proof.
  intros Hbefore Ha. induction before as [|b before IH]; simpl.
  - rewrite Ha. reflexivity.
  - rewrite (Hbefore b (or_introl eq_refl)). apply IH.
    intros x Hx. apply Hbefore. right. exact Hx.
Qed.

Lemma find_nowhere {A : Type} (f : A -> bool) (l : list A) :
  (forall x, In x l -> f x = false) -> find f l = None.
Proof.
  intro Hl. induction l as [|a l IH]; simpl; [reflexivity|].
  rewrite (Hl a (or_introl eq_refl)). apply IH. intros x Hx. apply Hl. right. exact Hx.
Qed.

Lemma targets_spec (kind name : string) (hpa : autoscalingv1.HorizontalPodAutoscaler) :
  targets EqualFold kind name hpa = true <->
  EqualFold (autoscalingv1.Kind (autoscalingv1.ScaleTargetRef (autoscalingv1.hpa_Spec hpa))) kind
  = true
  /\ autoscalingv1.Name (autoscalingv1.ScaleTargetRef (autoscalingv1.hpa_Spec hpa)) = name.
Proof.
  unfold targets. rewrite andb_true_iff, String.eqb_eq. reflexivity.
Qed.

(** Every path of the three operations, along the answers of the world. *)
Lemma getStatefulSet_paths {W : Type} (h : handler W) (w : W) (m : memory)
    (namespace name : string) :
  exists c e m1 w1 t1,
    run h (getClient m) w = (Done ((c, e), m1), w1, t1)
    /\ run h (getStatefulSet namespace name m) w =
       match e, c with
       | Some err, _ => (Done (GetWorkloadReturn None (Some err), m1), w1, t1)
       | None, None => (Panicked, w1, t1)
       | None, Some c =>
           let get := StatefulSets_Get c namespace name in
           let '(got, w2) := h _ get w1 in
           (Done (match got with
                  | (_, Some err) => GetWorkloadReturn None (Some err)
                  | (None, None) =>
                      GetWorkloadReturn None
                        (Some (Errorf ("Could not find statefulset/" ++ name
                                         ++ " in namespace " ++ namespace)))
                  | (Some statefulSet, None) => GetWorkload statefulSet
                  end, m1), w2, t1 ++ [Event get got])
       end.
Proof.
  destruct (getClient_returns h m w) as (c & e & m1 & w1 & t1 & Hget & _).
  exists c, e, m1, w1, t1. split; [exact Hget|].
  unfold getStatefulSet. rewrite run_bind, Hget. unfold_go. simpl.
  destruct e as [err|]; simpl; [rewrite app_nil_r; reflexivity|].
  destruct c as [c|]; simpl; [|rewrite app_nil_r; reflexivity].
  answer h as got. destruct got as [[statefulSet|] [err|]]; reflexivity.
Qed.

Lemma VerifyNoHorizontalPodAutoscaler_paths {W : Type} (h : handler W) (w : W) (m : memory)
    (channel : chan) (kind namespace name : string) :
  exists c e m1 w1 t1,
    run h (getClient m) w = (Done ((c, e), m1), w1, t1)
    /\ run h (VerifyNoHorizontalPodAutoscaler EqualFold ToLower channel kind namespace name m) w =
       match e, c with
       | Some err, _ => ends_with_send h (Send_error channel (Some err)) m1 w1 t1
       | None, None => (Panicked, w1, t1)
       | None, Some c =>
           let list := HorizontalPodAutoscalers_List c namespace metav1.no_options in
           let '(listed, w2) := h _ list w1 in
           let t2 := t1 ++ [Event list listed] in
           match listed with
           | (_, Some err) => ends_with_send h (Send_error channel (Some err)) m1 w2 t2
           | (None, None) => (Panicked, w2, t2)
           | (Some hpas, None) =>
               match find (targets EqualFold kind name) (autoscalingv1.Items hpas) with
               | Some _ => ends_with_send h (conflict ToLower channel kind name) m1 w2 t2
               | None => ends_with_send h (Send_error channel None) m1 w2 t2
               end
           end
       end.
Proof.
  destruct (getClient_returns h m w) as (c & e & m1 & w1 & t1 & Hget & _).
  exists c, e, m1, w1, t1. split; [exact Hget|].
  unfold VerifyNoHorizontalPodAutoscaler. rewrite run_bind, Hget. cbn iota beta.
  destruct e as [err|]; [rewrite run_send; reflexivity|].
  rewrite run_bind. unfold nonnil.
  destruct c as [c|]; [|unfold panic; simpl; rewrite app_nil_r; reflexivity].
  unfold ret at 1. cbn [run]. rewrite run_bind. unfold do at 1. cbn [run].
  destruct (h _ (HorizontalPodAutoscalers_List c namespace metav1.no_options) w1)
    as [[hpas err] w2].
  cbn iota beta zeta. destruct err as [err|].
  { rewrite run_send. unfold ends_with_send. cbn. rewrite <- app_assoc.
    destruct hpas; reflexivity. }
  rewrite run_bind. destruct hpas as [hpas|]; [|unfold panic; cbn; reflexivity].
  unfold ret at 1. cbn [run]. rewrite run_bind, range_hpas_run.
  destruct (find (targets EqualFold kind name) (autoscalingv1.Items hpas)).
  - unfold ret, ends_with_send. cbn. rewrite <- app_assoc. reflexivity.
  - rewrite run_send. unfold ends_with_send. cbn. rewrite <- app_assoc. reflexivity.
Qed.

Lemma GetPods_paths {W : Type} (h : handler W) (w : W) (m : memory)
    (channel : chan) (workload : address) :
  exists c e m1 w1 t1,
    run h (getClient m) w = (Done ((c, e), m1), w1, t1)
    /\ run h (GetPods FormatLabelSelector channel (Some workload) m) w =
       match e, c with
       | Some err, _ =>
           ends_with_send h (Send_Pods channel {| Pods_ := nil; Err := Some err |}) m1 w1 t1
       | None, None => (Panicked, w1, t1)
       | None, Some c =>
           let list :=
             Pods_List c (Namespace (workloads m workload))
               {| metav1.LabelSelector_ :=
                    FormatLabelSelector (PodSelector (workloads m workload)) |} in
           let '(listed, w2) := h _ list w1 in
           let t2 := t1 ++ [Event list listed] in
           match listed with
           | (_, Some err) =>
               ends_with_send h (Send_Pods channel {| Pods_ := nil; Err := Some err |}) m1 w2 t2
           | (None, None) => (Panicked, w2, t2)
           | (Some pods, None) =>
               ends_with_send h
                 (Send_Pods channel {| Pods_ := corev1.Items pods; Err := None |}) m1 w2 t2
           end
       end.
Proof.
  destruct (getClient_returns h m w) as (c & e & m1 & w1 & t1 & Hget & _ & Hw & _).
  exists c, e, m1, w1, t1. split; [exact Hget|].
  unfold GetPods. rewrite run_bind, Hget. cbn iota beta.
  destruct e as [err|]; [rewrite run_send; reflexivity|].
  rewrite run_bind. unfold field at 1. cbn [run]. rewrite run_bind. unfold nonnil.
  destruct c as [c|]; [|unfold panic; simpl; rewrite app_nil_r; reflexivity].
  unfold ret at 1. cbn [run]. rewrite run_bind. unfold field at 1. cbn [run].
  rewrite run_bind. unfold do at 1. cbn [run]. rewrite !Hw.
  destruct (h _ (Pods_List c _ _) w1) as [[pods err] w2].
  cbn iota beta zeta. destruct err as [err|].
  { rewrite run_send. unfold ends_with_send. cbn. rewrite <- app_assoc.
    destruct pods; reflexivity. }
  rewrite run_bind. destruct pods as [pods|]; [|unfold panic; cbn; reflexivity].
  unfold ret at 1. cbn [run]. rewrite run_send.
  unfold ends_with_send. cbn. rewrite <- app_assoc. reflexivity.
Qed.

(** [GetPods] on a nil pointer: the acquisition error is sent when there is
    one, and otherwise the run panics at [workload.PodSelector]. *)
Lemma GetPods_nil {W : Type} (h : handler W) (w : W) (m : memory) (channel : chan) :
  exists c e m1 w1 t1,
    run h (getClient m) w = (Done ((c, e), m1), w1, t1)
    /\ run h (GetPods FormatLabelSelector channel None m) w =
       match e with
       | Some err =>
           ends_with_send h (Send_Pods channel {| Pods_ := nil; Err := Some err |}) m1 w1 t1
       | None => (Panicked, w1, t1)
       end.
Proof.
  destruct (getClient_returns h m w) as (c & e & m1 & w1 & t1 & Hget & _).
  exists c, e, m1, w1, t1. split; [exact Hget|].
  unfold GetPods. rewrite run_bind, Hget. cbn iota beta.
  destruct e as [err|]; [rewrite run_send; reflexivity|].
  rewrite run_bind. unfold field. cbn [run]. rewrite app_nil_r. reflexivity.
Qed.

Lemma getClient_handle {W : Type} (h : handler W) (w : W) (m : memory) c m1 w1 t1 :
  no_nil_without_error h ->
  run h (getClient m) w = (Done ((c, None), m1), w1, t1) ->
  exists handle, c = Some handle.
Proof.
  intros Hconv Hget. destruct c as [handle|]; [exists handle; reflexivity|].
  destruct (getClient_run_facts _ _ _ Hget) as (_ & _ & _ & _ & Hnil).
  destruct (Hnil eq_refl eq_refl) as (cfg & w0 & Habsurd).
  destruct (Hconv w0) as (Hnew & _). destruct (Hnew cfg Habsurd).
Qed.

(** Closing a case of a run that ended with one send. *)
Ltac one_send Hsends Hpick :=
  unfold ends_with_send; do 4 eexists; (split; [reflexivity|]);
  rewrite ?pick_app, ?sends_app, ?Hsends, ?Hpick; split; reflexivity.

(** Whatever the world answers, no invocation sends two messages. *)
Lemma never_two_messages {W : Type} (h : handler W) (w : W) (m : memory) (channel : chan) :
  (forall kind namespace name,
     sends (snd (run h (GetK8sWorkload EqualFold channel kind namespace name m) w)) <= 1)
  /\ (forall kind namespace name,
        sends (snd (run h (VerifyNoHorizontalPodAutoscaler EqualFold ToLower channel
                             kind namespace name m) w)) <= 1)
  /\ (forall workload,
        sends (snd (run h (GetPods FormatLabelSelector channel workload m) w)) <= 1).
Proof.
  split; [|split].
  - intros kind namespace name. unfold GetK8sWorkload.
    destruct (EqualFold kind "StatefulSet"); [|rewrite run_send; unfold sends; simpl; lia].
    destruct (getStatefulSet_paths h w m namespace name)
      as (c & e & m1 & w1 & t1 & Hget & Hpaths).
    destruct (getClient_run_facts _ _ _ Hget) as (Hsetup & _).
    destruct (setup_only _ Hsetup) as (Hs & _).
    rewrite run_bind, Hpaths.
    destruct e as [err|]; [|destruct c as [c|]].
    + cbn [fst snd]. rewrite run_send. unfold ends_with_send. cbn [app snd].
      rewrite sends_app, Hs. unfold sends; simpl; lia.
    + cbn zeta. destruct (h _ (StatefulSets_Get c namespace name) w1) as [got w2].
      rewrite run_send. unfold ends_with_send. cbn [app snd].
      rewrite !sends_app, Hs. unfold sends; simpl; lia.
    + cbn [snd]. rewrite Hs. lia.
  - intros kind namespace name.
    destruct (VerifyNoHorizontalPodAutoscaler_paths h w m channel kind namespace name)
      as (c & e & m1 & w1 & t1 & Hget & Hpaths).
    destruct (getClient_run_facts _ _ _ Hget) as (Hsetup & _).
    destruct (setup_only _ Hsetup) as (Hs & _).
    rewrite Hpaths. unfold ends_with_send.
    destruct e as [err|]; [|destruct c as [c|]].
    + cbn [snd]. rewrite sends_app, Hs. unfold sends; simpl; lia.
    + cbn zeta.
      destruct (h _ (HorizontalPodAutoscalers_List c namespace metav1.no_options) w1)
        as [[[hpas|] [err|]] w2];
        try destruct (find (targets EqualFold kind name) (autoscalingv1.Items hpas));
        cbn [snd]; rewrite !sends_app, Hs; unfold sends; simpl; lia.
    + cbn [snd]. rewrite Hs. lia.
  - intros [workload|].
    2:{ destruct (GetPods_nil h w m channel) as (c & e & m1 & w1 & t1 & Hget & Hpaths).
        destruct (getClient_run_facts _ _ _ Hget) as (Hsetup & _).
        destruct (setup_only _ Hsetup) as (Hs & _).
        rewrite Hpaths. unfold ends_with_send. destruct e as [err|]; cbn [snd].
        - rewrite sends_app, Hs. unfold sends; simpl; lia.
        - rewrite Hs. lia. }
    destruct (GetPods_paths h w m channel workload)
      as (c & e & m1 & w1 & t1 & Hget & Hpaths).
    destruct (getClient_run_facts _ _ _ Hget) as (Hsetup & _).
    destruct (setup_only _ Hsetup) as (Hs & _).
    rewrite Hpaths. unfold ends_with_send.
    destruct e as [err|]; [|destruct c as [c|]].
    + cbn [snd]. rewrite sends_app, Hs. unfold sends; simpl; lia.
    + cbn zeta.
      match goal with
      | |- context [h _ (Pods_List ?c ?n ?o) w1] =>
          destruct (h _ (Pods_List c n o) w1) as [[[pods|] [err|]] w2]
      end; cbn [snd]; rewrite !sends_app, Hs; unfold sends; simpl; lia.
    + cbn [snd]. rewrite Hs. lia.
Qed.

(** C3, as the code has it.  Against a world that keeps the convention
    above, every invocation of [GetK8sWorkload], of
    [VerifyNoHorizontalPodAutoscaler] and of [GetPods] on the address of a
    workload returns having sent exactly one message, on the channel it was
    given: one of its own kind there, and one send in the whole run. *)
Theorem one_message_per_invocation {W : Type} (h : handler W) (w : W) (m : memory)
    (channel : chan) :
  no_nil_without_error h ->
  (forall kind namespace name,
     exists message m' w' t,
       run h (GetK8sWorkload EqualFold channel kind namespace name m) w
       = (Done (tt, m'), w', t)
       /\ pick workload_message t = [(channel, message)] /\ sends t = 1)
  /\
  (forall kind namespace name,
     exists message m' w' t,
       run h (VerifyNoHorizontalPodAutoscaler EqualFold ToLower channel kind namespace name m) w
       = (Done (tt, m'), w', t)
       /\ pick error_message t = [(channel, message)] /\ sends t = 1)
  /\
  (forall workload : address,
     exists message m' w' t,
       run h (GetPods FormatLabelSelector channel (Some workload) m) w
       = (Done (tt, m'), w', t)
       /\ pick pods_message t = [(channel, message)] /\ sends t = 1).
Proof.
  intro Hconv. split; [|split].
  - intros kind namespace name. unfold GetK8sWorkload.
    destruct (EqualFold kind "StatefulSet").
    2:{ rewrite run_send. unfold ends_with_send. do 4 eexists.
        split; [reflexivity|]. split; reflexivity. }
    destruct (getStatefulSet_paths h w m namespace name)
      as (c & e & m1 & w1 & t1 & Hget & Hpaths).
    destruct (getClient_run_facts _ _ _ Hget) as (Hsetup & _).
    destruct (setup_only _ Hsetup) as (Hs & _ & _ & _ & Hp & _).
    rewrite run_bind, Hpaths. destruct e as [err|].
    { cbn [fst snd]. rewrite run_send. unfold ends_with_send. cbn [app].
      do 4 eexists. split; [reflexivity|]. rewrite pick_app, sends_app, Hs, Hp.
      split; reflexivity. }
    destruct (getClient_handle _ _ Hconv Hget) as [handle ->]. cbn zeta.
    destruct (h _ (StatefulSets_Get handle namespace name) w1) as [got w2].
    rewrite run_send. unfold ends_with_send. cbn [app].
    do 4 eexists. split; [reflexivity|]. rewrite !pick_app, !sends_app, Hs, Hp.
    split; reflexivity.
  - intros kind namespace name.
    destruct (VerifyNoHorizontalPodAutoscaler_paths h w m channel kind namespace name)
      as (c & e & m1 & w1 & t1 & Hget & Hpaths).
    destruct (getClient_run_facts _ _ _ Hget) as (Hsetup & _).
    destruct (setup_only _ Hsetup) as (Hs & _ & _ & _ & _ & Hp & _).
    rewrite Hpaths. destruct e as [err|]; [one_send Hs Hp|].
    destruct (getClient_handle _ _ Hconv Hget) as [handle ->]. cbn zeta.
    destruct (Hconv w1) as (_ & Hlist & _).
    specialize (Hlist handle namespace metav1.no_options).
    destruct (h _ (HorizontalPodAutoscalers_List handle namespace metav1.no_options) w1)
      as [[[hpas|] [err|]] w2]; try one_send Hs Hp.
    + destruct (find (targets EqualFold kind name) (autoscalingv1.Items hpas)); one_send Hs Hp.
    + destruct (Hlist eq_refl).
  - intros workload.
    destruct (GetPods_paths h w m channel workload)
      as (c & e & m1 & w1 & t1 & Hget & Hpaths).
    destruct (getClient_run_facts _ _ _ Hget) as (Hsetup & _).
    destruct (setup_only _ Hsetup) as (Hs & _ & _ & _ & _ & _ & Hp).
    rewrite Hpaths. destruct e as [err|]; [one_send Hs Hp|].
    destruct (getClient_handle _ _ Hconv Hget) as [handle ->]. cbn zeta.
    destruct (Hconv w1) as (_ & _ & Hlist).
    match goal with
    | |- context [h _ (Pods_List ?c ?n ?o) w1] => specialize (Hlist c n o);
        destruct (h _ (Pods_List c n o) w1) as [[[pods|] [err|]] w2]
    end; try one_send Hs Hp.
    destruct (Hlist eq_refl).
Qed.

(** C4.  Given the listed autoscalers, [VerifyNoHorizontalPodAutoscaler]
    goes through them in order.  At the first one whose scale-target kind
    [EqualFold] matches with the queried kind and whose scale-target name is
    equal to the queried name it sends the conflict error and ends: whatever
    comes after that element plays no part.  When no element is such it
    sends nil.  The kind is compared by [EqualFold], the name by equality. *)
Theorem VerifyNoHorizontalPodAutoscaler_scan {W : Type} (h : handler W) (w : W) (m : memory)
    (channel : chan) (kind namespace name : string)
    (c : k8s.Clientset) (m1 : memory) (w1 : W) (t1 : trace)
    (hpas : autoscalingv1.HorizontalPodAutoscalerList) (w2 : W) :
  let list := HorizontalPodAutoscalers_List c namespace metav1.no_options in
  let target hpa := autoscalingv1.ScaleTargetRef (autoscalingv1.hpa_Spec hpa) in
  let matches hpa :=
    EqualFold (autoscalingv1.Kind (target hpa)) kind = true
    /\ autoscalingv1.Name (target hpa) = name in
  let error_of_conflict :=
    Errorf ("Error: " ++ ToLower kind ++ "/" ++ name
      ++ " cannot have a HorizontalPodAutoscaler attached for azp-agent-autoscaler to work") in
  run h (getClient m) w = (Done ((Some c, None), m1), w1, t1) ->
  h _ list w1 = ((Some hpas, None), w2) ->
  (forall before hpa after,
     autoscalingv1.Items hpas = before ++ hpa :: after ->
     (forall x, In x before -> ~ matches x) ->
     matches hpa ->
     run h (VerifyNoHorizontalPodAutoscaler EqualFold ToLower channel kind namespace name m) w
     = (Done (tt, m1), snd (h _ (Send_error channel (Some error_of_conflict)) w2),
        t1 ++ [Event list (Some hpas, None);
               Event (Send_error channel (Some error_of_conflict)) tt]))
  /\
  ((forall x, In x (autoscalingv1.Items hpas) -> ~ matches x) ->
     run h (VerifyNoHorizontalPodAutoscaler EqualFold ToLower channel kind namespace name m) w
     = (Done (tt, m1), snd (h _ (Send_error channel None) w2),
        t1 ++ [Event list (Some hpas, None); Event (Send_error channel None) tt])).
Proof.
  intros list target matches error_of_conflict Hget Hlist.
  destruct (VerifyNoHorizontalPodAutoscaler_paths h w m channel kind namespace name)
    as (c' & e' & m1' & w1' & t1' & Hget' & Hpaths).
  rewrite Hget in Hget'. injection Hget' as <- <- <- <- <-.
  cbn zeta in Hpaths. fold list in Hpaths. rewrite Hlist in Hpaths.
  assert (Hno : forall x, ~ matches x -> targets EqualFold kind name x = false).
  { intros x Hx. destruct (targets EqualFold kind name x) eqn:Ht; [|reflexivity].
    apply targets_spec in Ht. destruct (Hx Ht). }
  split.
  - intros before hpa after Hitems Hbefore Hhpa.
    rewrite Hitems, (find_first (targets EqualFold kind name) before hpa after) in Hpaths.
    + rewrite Hpaths. unfold ends_with_send, conflict. rewrite <- app_assoc. reflexivity.
    + intros x Hx. apply Hno, Hbefore, Hx.
    + apply targets_spec. exact Hhpa.
  - intro Hnone. rewrite (find_nowhere (targets EqualFold kind name)) in Hpaths.
    + rewrite Hpaths. unfold ends_with_send. rewrite <- app_assoc. reflexivity.
    + intros x Hx. apply Hno, Hnone, Hx.
Qed.

(** C7.  A resolve of a supported kind delivers one message, which is one of
    these.  When the client cannot be acquired, the acquisition error.  When
    the fetch answers with an error, that error as it is.  When the fetch
    answers with no object and no error, an error made on the spot whose
    text names the resource and the namespace.  When the fetch answers with
    an object and no error, the workload projected from the object.  In each
    case the message carries an error or a workload and not both. *)
Theorem resolve_outcomes {W : Type} (h : handler W) (w : W) (m : memory)
    (channel : chan) (kind namespace name : string)
    (c : option k8s.Clientset) (e : option error) (m1 : memory) (w1 : W) (t1 : trace) :
  let delivers message t :=
    run h (GetK8sWorkload EqualFold channel kind namespace name m) w
    = (Done (tt, m1), snd (h _ (Send_WorkloadReturn channel message) (fst t)),
       t1 ++ snd t ++ [Event (Send_WorkloadReturn channel message) tt])
    /\ pick workload_message (t1 ++ snd t ++ [Event (Send_WorkloadReturn channel message) tt])
       = [(channel, message)]
    /\ ((Resource message = None /\ wr_Err message <> None)
        \/ (Resource message <> None /\ wr_Err message = None)) in
  EqualFold kind "StatefulSet" = true ->
  run h (getClient m) w = (Done ((c, e), m1), w1, t1) ->
  (forall err, e = Some err ->
     delivers {| Resource := None; wr_Err := Some err |} (w1, []))
  /\
  (forall handle object answer w2,
     c = Some handle -> e = None ->
     h _ (StatefulSets_Get handle namespace name) w1 = ((object, answer), w2) ->
     let fetch := [Event (StatefulSets_Get handle namespace name) (object, answer)] in
     (forall err, answer = Some err ->
        delivers {| Resource := None; wr_Err := Some err |} (w2, fetch))
     /\
     (object = None -> answer = None ->
        exists text,
          delivers {| Resource := None; wr_Err := Some (Errorf text) |} (w2, fetch)
          /\ names text name /\ names text namespace)
     /\
     (forall statefulSet, object = Some statefulSet -> answer = None ->
        delivers
          {| Resource :=
               Some {| Kind := "StatefulSet";
                       Namespace := metav1.Namespace (appsv1.ObjectMeta statefulSet);
                       Name := metav1.Name (appsv1.ObjectMeta statefulSet);
                       PodSelector := appsv1.Selector statefulSet |};
             wr_Err := None |} (w2, fetch))).
Proof.
  intros delivers Hkind Hget.
  destruct (getStatefulSet_paths h w m namespace name)
    as (c' & e' & m1' & w1' & t1' & Hget' & Hpaths).
  rewrite Hget in Hget'. injection Hget' as <- <- <- <- <-.
  destruct (getClient_run_facts _ _ _ Hget) as (Hsetup & _).
  destruct (setup_only _ Hsetup) as (_ & _ & _ & _ & Hp & _).
  assert (Hrun : run h (GetK8sWorkload EqualFold channel kind namespace name m) w
                 = match run h (getStatefulSet namespace name m) w with
                   | (Done (r, m2), w2, t2) =>
                       (Done (tt, m2), snd (h _ (Send_WorkloadReturn channel r) w2),
                        t2 ++ [Event (Send_WorkloadReturn channel r) tt])
                   | (Panicked, w2, t2) => (Panicked, w2, t2)
                   end).
  { unfold GetK8sWorkload. rewrite Hkind, run_bind.
    destruct (run h (getStatefulSet namespace name m) w) as [[[[r m2]|] w2] t2];
      [|reflexivity].
    cbn [fst snd]. rewrite run_send. reflexivity. }
  rewrite Hpaths in Hrun. unfold delivers. split.
  - intros err ->. rewrite Hrun. cbn [fst snd app]. split; [reflexivity|].
    rewrite pick_app, Hp. split; [reflexivity|]. left. split; [reflexivity|discriminate].
  - intros handle object answer w2 -> -> Hfetch.
    cbn zeta in Hrun. rewrite Hfetch in Hrun. rewrite Hrun.
    cbn [fst snd]. rewrite <- !app_assoc. split; [|split].
    + intros err ->. destruct object; (split; [reflexivity|]);
        rewrite !pick_app, Hp; (split; [reflexivity|]);
        left; (split; [reflexivity|discriminate]).
    + intros -> ->. eexists. split; [|split].
      * split; [reflexivity|]. rewrite !pick_app, Hp. split; [reflexivity|].
        left. split; [reflexivity|discriminate].
      * apply names_inside.
      * change (names ("Could not find statefulset/" ++ (name ++ " in namespace " ++ namespace))
                  namespace).
        rewrite <- !append_assoc. apply names_last.
    + intros statefulSet -> ->. split; [reflexivity|]. rewrite !pick_app, Hp.
      split; [reflexivity|]. right. split; [discriminate|reflexivity].
Qed.

(** C8.  [GetPods] sends a nil slice with the error when the client cannot
    be acquired and when the list call answers with an error; when the list
    call answers with a pod list and no error it sends the items of that
    list with a nil error.  The list call is made in the workload's
    namespace with the label selector that [FormatLabelSelector] builds from
    the workload's [PodSelector]. *)
Theorem GetPods_delivers {W : Type} (h : handler W) (w : W) (m : memory)
    (channel : chan) (workload : address)
    (c : option k8s.Clientset) (e : option error) (m1 : memory) (w1 : W) (t1 : trace) :
  let delivers message w' t :=
    run h (GetPods FormatLabelSelector channel (Some workload) m) w
    = (Done (tt, m1), snd (h _ (Send_Pods channel message) w'),
       t1 ++ t ++ [Event (Send_Pods channel message) tt]) in
  let list handle :=
    Pods_List handle (Namespace (workloads m workload))
      {| metav1.LabelSelector_ := FormatLabelSelector (PodSelector (workloads m workload)) |} in
  run h (getClient m) w = (Done ((c, e), m1), w1, t1) ->
  (forall err, e = Some err -> delivers {| Pods_ := nil; Err := Some err |} w1 [])
  /\
  (forall handle pods answer w2,
     c = Some handle -> e = None ->
     h _ (list handle) w1 = ((pods, answer), w2) ->
     (forall err, answer = Some err ->
        delivers {| Pods_ := nil; Err := Some err |} w2
          [Event (list handle) (pods, answer)])
     /\
     (forall listed, pods = Some listed -> answer = None ->
        delivers {| Pods_ := corev1.Items listed; Err := None |} w2
          [Event (list handle) (pods, answer)])).
Proof.
  intros delivers list Hget.
  destruct (GetPods_paths h w m channel workload)
    as (c' & e' & m1' & w1' & t1' & Hget' & Hpaths).
  rewrite Hget in Hget'. injection Hget' as <- <- <- <- <-.
  unfold delivers. split.
  - intros err ->. rewrite Hpaths. reflexivity.
  - intros handle pods answer w2 -> -> Hlist.
    cbn zeta in Hpaths. fold (list handle) in Hpaths. rewrite Hlist in Hpaths.
    rewrite Hpaths. unfold ends_with_send. split.
    + intros err ->. destruct pods; rewrite <- app_assoc; reflexivity.
    + intros listed -> ->. rewrite <- app_assoc. reflexivity.
Qed.

End Asynchronous.

(** ** Environment variables *)

(** C10.  [GetEnvValue] returns the value with a nil error exactly when the
    value is not empty; for an empty value it returns the empty string and an
    error whose text names the variable.  A variable that only has a
    [ValueFrom] source has an empty value, so it gets the error: the source
    is not looked at. *)
Theorem GetEnvValue_cases (env : corev1.EnvVar) :
  (GetEnvValue env = (corev1.Value env, None) <-> corev1.Value env <> "")
  /\ (corev1.Value env = "" ->
      exists text,
        GetEnvValue env = ("", Some (Errorf text)) /\ names text (corev1.Name env))
  /\ (forall name source,
        GetEnvValue {| corev1.Name := name; corev1.Value := ""; corev1.ValueFrom := Some source |}
        = GetEnvValue {| corev1.Name := name; corev1.Value := ""; corev1.ValueFrom := None |}
        /\ snd (GetEnvValue {| corev1.Name := name; corev1.Value := "";
                               corev1.ValueFrom := Some source |}) <> None).
Proof.
  unfold GetEnvValue. split; [|split].
  - destruct (String.eqb (corev1.Value env) "") eqn:Hv; simpl.
    + apply String.eqb_eq in Hv. split; [discriminate|]. intro H. destruct (H Hv).
    + apply String.eqb_neq in Hv. split; [intros _; exact Hv|reflexivity].
  - intros ->. simpl. eexists. split; [reflexivity|].
    apply (names_last "Error getting value for environment variable ").
  - intros name source. simpl. split; [reflexivity|discriminate].
Qed.

(** ** The properties on the scripted cluster *)

(** The spec's scenario: three replicas now; asking for three writes
    nothing, asking for five writes once, with five. *)
Lemma Scale_read_check_write_witness :
  let fetch := StatefulSets_GetScale pod_client "ns" "agents" in
  let fetched : option autoscalingv1.Scale * option error :=
    (Some (scale_of "ns" "agents" 3), None) in
  let five := autoscalingv1.set_Replicas (scale_of "ns" "agents" 3) 5 in
  let update := StatefulSets_UpdateScale pod_client "ns" "agents" five in
  EqualFold_ascii (Kind (workloads fresh 0)) "StatefulSet" = true
  /\ run scripted (getClient fresh) in_pod
     = (Done ((Some pod_client, None), cached pod_client), in_pod, pod_setup)
  /\ scripted _ fetch in_pod = (fetched, in_pod)
  /\ run scripted (Scale EqualFold_ascii (Some 0) 3 fresh) in_pod
     = (Done (None, cached pod_client), in_pod, pod_setup ++ [Event fetch fetched])
  /\ update_writes (pod_setup ++ [Event fetch fetched]) = []
  /\ run scripted (Scale EqualFold_ascii (Some 0) 5 fresh) in_pod
     = (Done (None, cached pod_client), set_replicas_now in_pod 5,
        pod_setup ++ [Event fetch fetched; Event update (Some five, None)])
  /\ update_writes (pod_setup ++ [Event fetch fetched; Event update (Some five, None)])
     = [(pod_client, "ns", "agents", five)].
Proof.
  intros fetch fetched five update.
  assert (Hkind : EqualFold_ascii (Kind (workloads fresh 0)) "StatefulSet" = true)
    by reflexivity.
  assert (Hget : run scripted (getClient fresh) in_pod
                 = (Done ((Some pod_client, None), cached pod_client), in_pod, pod_setup))
    by reflexivity.
  assert (Hfetch : scripted _ fetch in_pod = (fetched, in_pod)) by reflexivity.
  destruct (@Scale_read_check_write EqualFold_ascii _ scripted in_pod fresh 0 3
              _ _ _ _ _ _ Hkind Hget Hfetch) as [Hsame _].
  destruct (@Scale_read_check_write EqualFold_ascii _ scripted in_pod fresh 0 5
              _ _ _ _ _ _ Hkind Hget Hfetch) as [_ Hdiffers].
  destruct (Hsame eq_refl) as [Hrun3 Hnone].
  assert (Hneq : autoscalingv1.Replicas (autoscalingv1.Spec (scale_of "ns" "agents" 3)) <> 5%Z)
    by discriminate.
  destruct (Hdiffers Hneq (Some five) None (set_replicas_now in_pod 5) eq_refl)
    as (Hrun5 & Hone & _).
  repeat split; assumption.
Defined.

(** A Deployment is not supported.  On the workstation [Scale] answers so
    only after it has read the configuration and built a client; where
    nothing is configured it answers with the configuration error. *)
Lemma Scale_unsupported_kind_counterexample :
  EqualFold_ascii (Kind (workloads fresh 1)) "StatefulSet" = false
  /\ run scripted (Scale EqualFold_ascii (Some 1) 5 fresh) workstation
     = (Done (Some (Errorf "Resource kind Deployment is not implemented"),
              cached {| k8s.clientset_id := 2 |}),
        workstation,
        [Event InClusterConfig
           ({| k8srest.config_id := 0 |},
            Some (libraryError 1 "unable to load in-cluster configuration"));
         Event (Getenv "KUBECONFIG") "";
         Event (BuildConfigFromFlags "" "")
           ({| k8srest.config_id := 0 |},
            Some (libraryError 2 "invalid configuration: no configuration has been provided"));
         Event (Getenv "HOME") "/home/dev";
         Event (BuildConfigFromFlags "" "/home/dev/.kube/config")
           ({| k8srest.config_id := 2 |}, None);
         Event (NewForConfig {| k8srest.config_id := 2 |})
           (Some {| k8s.clientset_id := 2 |}, None)])
  /\ returned (fst (fst (run scripted (Scale EqualFold_ascii (Some 1) 5 fresh) unconfigured)))
     = Some (Some (Errorf
          "Error initializing Kubernetes config: invalid configuration: no configuration has been provided"))
  /\ returned (fst (fst (run scripted (Scale EqualFold_ascii (Some 1) 5 fresh) unconfigured)))
     <> Some (Some (Errorf "Resource kind Deployment is not implemented"))
  /\ length (filter is_client_setup
               (snd (run scripted (Scale EqualFold_ascii (Some 1) 5 fresh) unconfigured))) = 5.
Proof.
  split; [reflexivity|]. split; [reflexivity|]. split; [reflexivity|].
  split; [discriminate|reflexivity].
Qed.

Lemma unsupported_kind_witness :
  let message :=
    Send_WorkloadReturn results
      (GetWorkloadReturn None
         (Some (Errorf "Resource kind Deployment is not implemented"))) in
  EqualFold_ascii "Deployment" "StatefulSet" = false
  /\ run scripted (GetK8sWorkload EqualFold_ascii results "Deployment" "ns" "x" fresh) unconfigured
     = (Done (tt, fresh), unconfigured, [Event message tt])
  /\ EqualFold_ascii (Kind (workloads fresh 1)) "StatefulSet" = false
  /\ exists c e m1 w1 t1,
       run scripted (getClient fresh) in_pod = (Done ((c, e), m1), w1, t1)
       /\ run scripted (Scale EqualFold_ascii (Some 1) 5 fresh) in_pod
          = (Done (match e with
                   | Some err => Some err
                   | None => Some (Errorf "Resource kind Deployment is not implemented")
                   end, m1), w1, t1)
       /\ forallb is_client_setup t1 = true
       /\ resource_calls t1 = [].
Proof.
  intro message.
  assert (Hresolve : EqualFold_ascii "Deployment" "StatefulSet" = false) by reflexivity.
  assert (Hscale : EqualFold_ascii (Kind (workloads fresh 1)) "StatefulSet" = false)
    by reflexivity.
  split; [exact Hresolve|]. split.
  - exact (proj1 (unsupported_kind EqualFold_ascii scripted unconfigured fresh)
             results "Deployment" "ns" "x" Hresolve).
  - split; [exact Hscale|].
    exact (proj2 (unsupported_kind EqualFold_ascii scripted in_pod fresh) 1 5%Z Hscale).
Defined.

(** In the pod's cluster, which keeps the convention, [GetPods] on a nil
    pointer acquires the client and then panics at [workload.PodSelector]:
    nothing was sent.  With the client already stored it panics at once. *)
Lemma GetPods_nil_counterexample :
  no_nil_without_error scripted
  /\ run scripted (GetPods FormatLabelSelector_labels results None fresh) in_pod
     = (Panicked, in_pod, pod_setup)
  /\ sends pod_setup = 0
  /\ pick pods_message pod_setup = []
  /\ run scripted (GetPods FormatLabelSelector_labels results None (cached pod_client)) in_pod
     = (Panicked, in_pod, []).
Proof.
  split; [intro w; repeat split; intros; simpl; discriminate|].
  repeat split; reflexivity.
Qed.

Lemma one_message_per_invocation_witness :
  no_nil_without_error scripted
  /\ (exists message m' w' t,
        run scripted (GetK8sWorkload EqualFold_ascii results "statefulset" "ns" "agents" fresh)
          in_pod
        = (Done (tt, m'), w', t)
        /\ pick workload_message t = [(results, message)] /\ sends t = 1)
  /\ (exists message m' w' t,
        run scripted
          (VerifyNoHorizontalPodAutoscaler EqualFold_ascii ToLower_ascii results
             "StatefulSet" "ns" "target" fresh) in_pod
        = (Done (tt, m'), w', t)
        /\ pick error_message t = [(results, message)] /\ sends t = 1)
  /\ (exists message m' w' t,
        run scripted (GetPods FormatLabelSelector_labels results (Some 0) fresh) unconfigured
        = (Done (tt, m'), w', t)
        /\ pick pods_message t = [(results, message)] /\ sends t = 1).
Proof.
  assert (Hconv : no_nil_without_error scripted).
  { intro w. repeat split; intros; simpl; discriminate. }
  split; [exact Hconv|].
  destruct (one_message_per_invocation EqualFold_ascii ToLower_ascii FormatLabelSelector_labels
              (h := scripted) in_pod fresh results Hconv) as (Hresolve & Hguard & _).
  destruct (one_message_per_invocation EqualFold_ascii ToLower_ascii FormatLabelSelector_labels
              (h := scripted) unconfigured fresh results Hconv) as (_ & _ & Hpods).
  split; [apply Hresolve|]. split; [apply Hguard|apply Hpods].
Defined.

(** The spec's scenario: autoscalers on "foo", "bar" and "target", in this
    order, and a query for "target".  A query for "Target" finds nothing:
    names are compared as they are. *)
Lemma VerifyNoHorizontalPodAutoscaler_scan_witness :
  let list := HorizontalPodAutoscalers_List pod_client "ns" metav1.no_options in
  let listed : option autoscalingv1.HorizontalPodAutoscalerList * option error :=
    (Some {| autoscalingv1.Items := autoscalers in_pod |}, None) in
  let conflict :=
    Send_error results
      (Some (Errorf
         "Error: statefulset/target cannot have a HorizontalPodAutoscaler attached for azp-agent-autoscaler to work")) in
  run scripted (getClient fresh) in_pod
  = (Done ((Some pod_client, None), cached pod_client), in_pod, pod_setup)
  /\ scripted _ list in_pod = (listed, in_pod)
  /\ autoscalers in_pod
     = [hpa_for "Deployment" "foo"; hpa_for "Deployment" "bar"]
       ++ hpa_for "statefulset" "target" :: []
  /\ run scripted
       (VerifyNoHorizontalPodAutoscaler EqualFold_ascii ToLower_ascii results
          "StatefulSet" "ns" "target" fresh) in_pod
     = (Done (tt, cached pod_client), in_pod,
        pod_setup ++ [Event list listed; Event conflict tt])
  /\ run scripted
       (VerifyNoHorizontalPodAutoscaler EqualFold_ascii ToLower_ascii results
          "StatefulSet" "ns" "Target" fresh) in_pod
     = (Done (tt, cached pod_client), in_pod,
        pod_setup ++ [Event list listed; Event (Send_error results None) tt]).
Proof.
  intros list listed conflict.
  assert (Hget : run scripted (getClient fresh) in_pod
                 = (Done ((Some pod_client, None), cached pod_client), in_pod, pod_setup))
    by reflexivity.
  assert (Hlist : scripted _ list in_pod = (listed, in_pod)) by reflexivity.
  split; [exact Hget|]. split; [exact Hlist|]. split; [reflexivity|]. split.
  - refine (proj1 (@VerifyNoHorizontalPodAutoscaler_scan EqualFold_ascii ToLower_ascii
                     _ scripted in_pod fresh results "StatefulSet" "ns" "target"
                     _ _ _ _ _ _ Hget Hlist)
              [hpa_for "Deployment" "foo"; hpa_for "Deployment" "bar"]
              (hpa_for "statefulset" "target") [] eq_refl _ _).
    + intros x [<- | [<- | []]] [Hkind _]; discriminate Hkind.
    + split; reflexivity.
  - refine (proj2 (@VerifyNoHorizontalPodAutoscaler_scan EqualFold_ascii ToLower_ascii
                     _ scripted in_pod fresh results "StatefulSet" "ns" "Target"
                     _ _ _ _ _ _ Hget Hlist) _).
    intros x [<- | [<- | [<- | []]]] [Hkind Hname];
      first [discriminate Hkind | discriminate Hname].
Defined.

Lemma getClient_caches_success_only_witness :
  run scripted (getClient fresh) unconfigured
  = (Done ((None,
            Some (Errorf
              "Error initializing Kubernetes config: invalid configuration: no configuration has been provided")),
           fresh), unconfigured,
     snd (run scripted (getClient fresh) unconfigured))
  /\ client (k8sClient fresh) = None
  /\ run scripted (getClient fresh) in_pod
     = (Done ((Some pod_client, None), cached pod_client), in_pod, pod_setup)
  /\ client (k8sClient (cached pod_client)) = Some pod_client
  /\ run scripted (getClient (cached pod_client)) unconfigured
     = (Done ((Some pod_client, None), cached pod_client), unconfigured, []).
Proof.
  assert (Hfails : run scripted (getClient fresh) unconfigured
                   = (Done ((None,
                             Some (Errorf
                               "Error initializing Kubernetes config: invalid configuration: no configuration has been provided")),
                            fresh), unconfigured,
                      snd (run scripted (getClient fresh) unconfigured)))
    by reflexivity.
  assert (Hworks : run scripted (getClient fresh) in_pod
                   = (Done ((Some pod_client, None), cached pod_client), in_pod, pod_setup))
    by reflexivity.
  destruct (getClient_caches_success_only _ _ _ Hfails) as [Hunset _].
  destruct (getClient_caches_success_only _ _ _ Hworks) as [_ Hstored].
  destruct (Hunset ltac:(discriminate)) as [Hnone _].
  destruct (Hstored pod_client eq_refl eq_refl) as [Hsome Hagain].
  split; [exact Hfails|]. split; [exact Hnone|]. split; [exact Hworks|].
  split; [exact Hsome|]. exact (Hagain _ scripted unconfigured (cached pod_client) eq_refl).
Defined.

(** The spec's scenario: the fetch of "missing" in "ns" answers with no
    object and no error; next to it, a fetch that finds the agents. *)
Lemma resolve_outcomes_witness :
  let get name := StatefulSets_Get pod_client "ns" name in
  let not_found :=
    {| Resource := None;
       wr_Err := Some (Errorf "Could not find statefulset/missing in namespace ns") |} in
  EqualFold_ascii "StatefulSet" "StatefulSet" = true
  /\ run scripted (getClient fresh) quiet
     = (Done ((Some pod_client, None), cached pod_client), quiet, pod_setup)
  /\ scripted _ (get "missing") quiet = ((None, None), quiet)
  /\ run scripted (GetK8sWorkload EqualFold_ascii results "StatefulSet" "ns" "missing" fresh)
       quiet
     = (Done (tt, cached pod_client), quiet,
        pod_setup ++ [Event (get "missing") (None, None)]
          ++ [Event (Send_WorkloadReturn results not_found) tt])
  /\ names "Could not find statefulset/missing in namespace ns" "missing"
  /\ names "Could not find statefulset/missing in namespace ns" "ns"
  /\ scripted _ (get "agents") quiet = ((Some agents, None), quiet)
  /\ run scripted (GetK8sWorkload EqualFold_ascii results "StatefulSet" "ns" "agents" fresh)
       quiet
     = (Done (tt, cached pod_client), quiet,
        pod_setup ++ [Event (get "agents") (Some agents, None)]
          ++ [Event (Send_WorkloadReturn results
                       {| Resource := Some agents_workload; wr_Err := None |}) tt]).
Proof.
  intros get not_found.
  assert (Hkind : EqualFold_ascii "StatefulSet" "StatefulSet" = true) by reflexivity.
  assert (Hget : run scripted (getClient fresh) quiet
                 = (Done ((Some pod_client, None), cached pod_client), quiet, pod_setup))
    by reflexivity.
  assert (Hmissing : scripted _ (get "missing") quiet = ((None, None), quiet))
    by reflexivity.
  assert (Hagents : scripted _ (get "agents") quiet = ((Some agents, None), quiet))
    by reflexivity.
  destruct (@resolve_outcomes EqualFold_ascii _ scripted quiet fresh results
              "StatefulSet" "ns" "missing" _ _ _ _ _ Hkind Hget) as [_ Hfetched].
  destruct (Hfetched pod_client None None quiet eq_refl eq_refl Hmissing)
    as (_ & Hnone & _).
  destruct (Hnone eq_refl eq_refl) as (text & (Hrun & _ & _) & _ & _).
  destruct (@resolve_outcomes EqualFold_ascii _ scripted quiet fresh results
              "StatefulSet" "ns" "agents" _ _ _ _ _ Hkind Hget) as [_ Hfetched'].
  destruct (Hfetched' pod_client (Some agents) None quiet eq_refl eq_refl Hagents)
    as (_ & _ & Hsome).
  destruct (Hsome agents eq_refl eq_refl) as (Hrun' & _ & _).
  split; [exact Hkind|]. split; [exact Hget|]. split; [exact Hmissing|].
  split; [reflexivity|].
  split; [exists "Could not find statefulset/", " in namespace ns"; reflexivity|].
  split; [exists "Could not find statefulset/missing in namespace ", ""; reflexivity|].
  split; [exact Hagents|]. exact Hrun'.
Defined.

Lemma GetPods_delivers_witness :
  let list :=
    Pods_List pod_client "ns" {| metav1.LabelSelector_ := "app=agent" |} in
  let listed : option corev1.PodList * option error :=
    (Some {| corev1.Items := pods_now in_pod |}, None) in
  run scripted (getClient fresh) in_pod
  = (Done ((Some pod_client, None), cached pod_client), in_pod, pod_setup)
  /\ scripted _ list in_pod = (listed, in_pod)
  /\ run scripted (GetPods FormatLabelSelector_labels results (Some 0) fresh) in_pod
     = (Done (tt, cached pod_client), in_pod,
        pod_setup ++ [Event list listed]
          ++ [Event (Send_Pods results
                       {| Pods_ := [agent_pod "agents-0"; agent_pod "agents-1";
                                    agent_pod "agents-2"];
                          Err := None |}) tt]).
Proof.
  intros list listed.
  assert (Hget : run scripted (getClient fresh) in_pod
                 = (Done ((Some pod_client, None), cached pod_client), in_pod, pod_setup))
    by reflexivity.
  assert (Hlist : scripted _ list in_pod = (listed, in_pod)) by reflexivity.
  split; [exact Hget|]. split; [exact Hlist|].
  destruct (@GetPods_delivers FormatLabelSelector_labels _ scripted in_pod fresh results 0
              _ _ _ _ _ Hget) as [_ Hlisted].
  destruct (Hlisted pod_client _ _ in_pod eq_refl eq_refl Hlist) as [_ Hitems].
  exact (Hitems _ eq_refl eq_refl).
Defined.

Lemma Scale_leaves_workload_witness :
  run scripted (Scale EqualFold_ascii (Some 0) 5 fresh) in_pod
  = (Done (None, cached pod_client), set_replicas_now in_pod 5,
     snd (run scripted (Scale EqualFold_ascii (Some 0) 5 fresh) in_pod))
  /\ workloads (cached pod_client) = workloads fresh
  /\ workloads (cached pod_client) 0 = agents_workload.
Proof.
  assert (Hrun : run scripted (Scale EqualFold_ascii (Some 0) 5 fresh) in_pod
                 = (Done (None, cached pod_client), set_replicas_now in_pod 5,
                    snd (run scripted (Scale EqualFold_ascii (Some 0) 5 fresh) in_pod)))
    by reflexivity.
  split; [exact Hrun|].
  destruct (Scale_leaves_workload _ _ _ _ _ _ Hrun) as (Hsame & _).
  split; [exact Hsame|]. rewrite Hsame. reflexivity.
Defined.

(** A variable that takes its value from a secret has no value here. *)
Lemma GetEnvValue_cases_witness :
  let token :=
    {| corev1.Name := "AZP_TOKEN"; corev1.Value := ""; corev1.ValueFrom := Some "secret" |} in
  let pool :=
    {| corev1.Name := "AZP_POOL"; corev1.Value := "Default"; corev1.ValueFrom := None |} in
  corev1.Value token = ""
  /\ (exists text, GetEnvValue token = ("", Some (Errorf text)) /\ names text "AZP_TOKEN")
  /\ corev1.Value pool <> ""
  /\ GetEnvValue pool = ("Default", None).
Proof.
  intros token pool.
  destruct (GetEnvValue_cases token) as (_ & Hempty & _).
  destruct (GetEnvValue_cases pool) as (Hvalue & _).
  split; [reflexivity|]. split; [exact (Hempty eq_refl)|].
  assert (Hpool : corev1.Value pool <> "") by discriminate.
  split; [exact Hpool|]. exact (proj2 Hvalue Hpool).
Defined.

(** ** Further properties of the scaler *)

Lemma setup_quiet (t : trace) :
  forallb is_client_setup t = true ->
  requests t = [] /\ pick update_answer t = [] /\ filter is_client_setup t = t.
Proof.
  unfold requests.
  induction t as [|[X c x] t IH]; simpl; [repeat split; reflexivity|].
  intro H. apply andb_true_iff in H. destruct H as [Hc Ht].
  destruct (IH Ht) as (Hr & Hu & Hf).
  destruct c; simpl in *; try discriminate; rewrite Hf; repeat split; assumption.
Qed.

Section ScalerMore.

Variable EqualFold : string -> string -> bool.

(** X1.  A nil error from [Scale] means that the desired count was seen or
    written: the pointer was the address of a workload of the supported
    kind, the client is stored, the run fetched one scale, and either that
    scale already had the desired count and nothing was written, or it had
    another count and the run made one write, of that scale with the desired
    count, which was answered with a nil error. *)
Theorem Scale_nil_means_desired {W : Type} (h : handler W) (w : W) (m : memory)
    (resource : WorkloadPtr) (replicas : Z) (m' : memory) (w' : W) (t : trace) :
  run h (Scale EqualFold resource replicas m) w = (Done (None, m'), w', t) ->
  exists a,
    resource = Some a
    /\ EqualFold (Kind (workloads m a)) "StatefulSet" = true
    /\ exists c scale,
         client (k8sClient m') = Some c
         /\ fetched_scales t = [scale]
         /\ ((autoscalingv1.Replicas (autoscalingv1.Spec scale) = replicas
              /\ update_writes t = [])
             \/
             (autoscalingv1.Replicas (autoscalingv1.Spec scale) <> replicas
              /\ update_writes t
                 = [(c, Namespace (workloads m a), Name (workloads m a),
                     autoscalingv1.set_Replicas scale replicas)]
              /\ pick update_answer t = [None])).
Proof.
  intro Hrun. destruct resource as [resource|].
  2:{ destruct (Scale_nil EqualFold h w m replicas)
        as (c & e & m1 & w1 & t1 & _ & Hpaths).
      rewrite Hrun in Hpaths. destruct e; discriminate. }
  exists resource. split; [reflexivity|].
  destruct (Scale_paths EqualFold h w m resource replicas)
    as (c & e & m1 & w1 & t1 & Hget & Hpaths).
  destruct (getClient_run_facts _ _ _ Hget) as (Hsetup & _ & _ & Hstored & _).
  destruct (setup_only _ Hsetup) as (_ & _ & Hupd & Hfetched & _).
  destruct (setup_quiet _ Hsetup) as (_ & Hans & _).
  rewrite Hrun in Hpaths. simpl in Hpaths.
  unfold update_writes, fetched_scales in *.
  destruct e as [err|]; [discriminate|].
  destruct (EqualFold _ "StatefulSet"); [|discriminate].
  split; [reflexivity|].
  destruct c as [c|]; [|discriminate].
  destruct (h _ (StatefulSets_GetScale c _ _) w1) as [[[scale|] [err|]] w2];
    try discriminate.
  destruct (Z.eqb _ replicas) eqn:Hcount.
  - injection Hpaths as -> -> ->. exists c, scale.
    split; [exact (Hstored eq_refl)|]. rewrite !pick_app, Hupd, Hfetched.
    split; [reflexivity|]. left. split; [apply Z.eqb_eq; exact Hcount|reflexivity].
  - destruct (h _ (StatefulSets_UpdateScale c _ _ _) w2) as [[written err] w3].
    injection Hpaths as <- -> -> ->. exists c, scale.
    split; [exact (Hstored eq_refl)|]. rewrite !pick_app, Hupd, Hfetched, Hans.
    split; [reflexivity|]. right. split; [apply Z.eqb_neq; exact Hcount|].
    split; reflexivity.
Qed.

(** X2.  An error from [Scale] comes before any write or from the write
    itself: when [Scale] returns an error, either the run made no update
    write, or it made exactly one and the error returned is the one that
    write was answered with. *)
Theorem Scale_error_is_first_failure {W : Type} (h : handler W) (w : W) (m : memory)
    (resource : WorkloadPtr) (replicas : Z) (err : error) (m' : memory) (w' : W)
    (t : trace) :
  run h (Scale EqualFold resource replicas m) w = (Done (Some err, m'), w', t) ->
  update_writes t = []
  \/ (exists write, update_writes t = [write]) /\ pick update_answer t = [Some err].
Proof.
  intro Hrun. destruct resource as [resource|].
  2:{ destruct (Scale_nil EqualFold h w m replicas)
        as (c & e & m1 & w1 & t1 & Hget & Hpaths).
      destruct (getClient_run_facts _ _ _ Hget) as (Hsetup & _).
      destruct (setup_only _ Hsetup) as (_ & _ & Hupd & _).
      rewrite Hrun in Hpaths. destruct e as [e|]; [|discriminate].
      injection Hpaths as _ _ _ ->. left. exact Hupd. }
  destruct (Scale_paths EqualFold h w m resource replicas)
    as (c & e & m1 & w1 & t1 & Hget & Hpaths).
  destruct (getClient_run_facts _ _ _ Hget) as (Hsetup & _).
  destruct (setup_only _ Hsetup) as (_ & _ & Hupd & _).
  destruct (setup_quiet _ Hsetup) as (_ & Hans & _).
  rewrite Hrun in Hpaths. simpl in Hpaths. unfold update_writes in *.
  destruct e as [e|]; [injection Hpaths as _ _ _ ->; left; exact Hupd|].
  destruct (EqualFold _ "StatefulSet");
    [|injection Hpaths as _ _ _ ->; left; exact Hupd].
  destruct c as [c|]; [|discriminate].
  destruct (h _ (StatefulSets_GetScale c _ _) w1) as [[[scale|] [e|]] w2];
    try discriminate;
    try (injection Hpaths as _ _ _ ->; left; rewrite pick_app, Hupd; reflexivity).
  destruct (Z.eqb _ replicas); [discriminate|].
  destruct (h _ (StatefulSets_UpdateScale c _ _ _) w2) as [[written e] w3].
  injection Hpaths as <- _ _ ->. right. rewrite !pick_app, Hupd, Hans. simpl.
  split; [eexists; reflexivity|reflexivity].
Qed.

(** X3.  [Scale] asks the cluster for nothing but the scale of the workload
    it was given: in every run, whatever the pointer, whatever the world
    answers and however the run ends, the requests made are none, or the
    pointer is the address of a workload and they are one fetch of the scale
    of that name in that namespace, or that fetch followed by one update of
    it. *)
Theorem Scale_requests {W : Type} (h : handler W) (w : W) (m : memory)
    (resource : WorkloadPtr) (replicas : Z) :
  let asked := requests (snd (run h (Scale EqualFold resource replicas m) w)) in
  asked = []
  \/ exists a,
       resource = Some a
       /\ let namespace := Namespace (workloads m a) in
          let name := Name (workloads m a) in
          asked = [(get_scale, namespace, Some name)]
          \/ asked = [(get_scale, namespace, Some name);
                      (update_scale, namespace, Some name)].
Proof.
  intro asked. unfold asked, requests. destruct resource as [resource|].
  2:{ destruct (Scale_nil EqualFold h w m replicas)
        as (c & e & m1 & w1 & t1 & Hget & Hpaths).
      destruct (getClient_run_facts _ _ _ Hget) as (Hsetup & _).
      destruct (setup_quiet _ Hsetup) as (Hreq & _).
      rewrite Hpaths. left. destruct e; exact Hreq. }
  destruct (Scale_paths EqualFold h w m resource replicas)
    as (c & e & m1 & w1 & t1 & Hget & Hpaths).
  destruct (getClient_run_facts _ _ _ Hget) as (Hsetup & _).
  destruct (setup_quiet _ Hsetup) as (Hreq & _). unfold requests in Hreq.
  rewrite Hpaths. simpl.
  destruct e as [e|]; [left; exact Hreq|].
  destruct (EqualFold _ "StatefulSet"); [|left; exact Hreq].
  destruct c as [c|]; [|left; exact Hreq].
  right. exists resource. split; [reflexivity|].
  destruct (h _ (StatefulSets_GetScale c _ _) w1) as [[[scale|] [e|]] w2];
    try (left; simpl; rewrite pick_app, Hreq; reflexivity).
  destruct (Z.eqb _ replicas).
  - left; simpl; rewrite pick_app, Hreq; reflexivity.
  - destruct (h _ (StatefulSets_UpdateScale c _ _ _) w2) as [written w3].
    right; simpl; rewrite pick_app, Hreq; reflexivity.
Qed.

(** X4.  Asking twice for the same count writes once at most.  After a call
    of [Scale] that returned nil the client is stored; in a world whose
    fetch then reports the desired count, a second call with that count
    makes one call only, the fetch: no configuration, no construction, no
    write.  It returns nil and leaves the memory as it is. *)
Theorem Scale_again {W : Type} (h : handler W) (w : W) (m : memory)
    (resource : WorkloadPtr) (replicas : Z) (m1 : memory) (w1 : W) (t1 : trace) :
  run h (Scale EqualFold resource replicas m) w = (Done (None, m1), w1, t1) ->
  exists a c,
    resource = Some a
    /\ client (k8sClient m1) = Some c
    /\ forall scale w2,
         let fetch :=
           StatefulSets_GetScale c (Namespace (workloads m a)) (Name (workloads m a)) in
         h _ fetch w1 = ((Some scale, None), w2) ->
         autoscalingv1.Replicas (autoscalingv1.Spec scale) = replicas ->
         run h (Scale EqualFold resource replicas m1) w1
         = (Done (None, m1), w2, [Event fetch (Some scale, None)]).
Proof.
  intro Hrun. destruct resource as [resource|].
  2:{ destruct (Scale_nil EqualFold h w m replicas)
        as (c & e & m0 & w0 & t0 & _ & Hpaths).
      rewrite Hrun in Hpaths. destruct e; discriminate. }
  destruct (Scale_paths EqualFold h w m resource replicas)
    as (c & e & m0 & w0 & t0 & Hget & Hpaths).
  destruct (getClient_run_facts _ _ _ Hget) as (_ & Hw & _ & Hstored & _).
  rewrite Hrun in Hpaths. simpl in Hpaths.
  destruct e as [err|]; [discriminate|].
  destruct (EqualFold (Kind (workloads m resource)) "StatefulSet") eqn:Hkind;
    [|discriminate].
  destruct c as [c|]; [|discriminate].
  assert (Hm : m1 = m0).
  { destruct (h _ (StatefulSets_GetScale c _ _) w0) as [[[scale|] [err|]] w2];
      try discriminate.
    destruct (Z.eqb _ replicas).
    - injection Hpaths as -> _ _. reflexivity.
    - destruct (h _ (StatefulSets_UpdateScale c _ _ _) w2) as [[written err] w3].
      injection Hpaths as _ -> _ _. reflexivity. }
  subst m0. exists resource, c. split; [reflexivity|].
  split; [exact (Hstored eq_refl)|].
  intros scale w2 fetch Hfetch Hcount.
  unfold Scale. rewrite run_bind, (getClient_cached m1 (Hstored eq_refl)).
  unfold_go. simpl. rewrite !Hw, Hkind. simpl. rewrite !Hw. fold fetch.
  rewrite Hfetch. simpl. apply Z.eqb_eq in Hcount. rewrite Hcount. reflexivity.
Qed.

(** X5.  With a client stored, [Scale] on a workload of an unsupported kind
    makes no call at all: it returns the unsupported-kind error, and the
    world and the memory are as they were. *)
Theorem Scale_unsupported_when_cached {W : Type} (h : handler W) (w : W) (m : memory)
    (resource : address) (replicas : Z) (c : k8s.Clientset) :
  client (k8sClient m) = Some c ->
  EqualFold (Kind (workloads m resource)) "StatefulSet" = false ->
  run h (Scale EqualFold (Some resource) replicas m) w
  = (Done (Some (Errorf ("Resource kind " ++ Kind (workloads m resource)
                           ++ " is not implemented")), m), w, []).
Proof.
  intros Hcached Hkind.
  unfold Scale. rewrite run_bind, (getClient_cached m Hcached).
  unfold_go. cbn [run fst snd pbind app]. rewrite Hkind. reflexivity.
Qed.

(** X6.  Given the address of a workload, [Scale] panics on a broken answer
    only: against a world in which neither the construction of the client
    nor the fetch of a scale answers with nil and a nil error, every call of
    [Scale] on a pointer that is not nil returns. *)
Theorem Scale_returns {W : Type} (h : handler W) (w : W) (m : memory)
    (resource : address) (replicas : Z) :
  no_nil_without_error h ->
  no_nil_scale h ->
  exists err m' w' t,
    run h (Scale EqualFold (Some resource) replicas m) w = (Done (err, m'), w', t).
Proof.
  intros Hconv Hscale.
  destruct (Scale_paths EqualFold h w m resource replicas)
    as (c & e & m1 & w1 & t1 & Hget & Hpaths).
  rewrite Hpaths. simpl.
  destruct e as [e|]; [do 4 eexists; reflexivity|].
  destruct (EqualFold _ "StatefulSet"); [|do 4 eexists; reflexivity].
  destruct (getClient_handle _ _ Hconv Hget) as [handle ->].
  specialize (Hscale w1 handle (Namespace (workloads m resource))
                (Name (workloads m resource))).
  destruct (h _ (StatefulSets_GetScale handle _ _) w1) as [[[scale|] [e|]] w2];
    try (do 4 eexists; reflexivity).
  - destruct (Z.eqb _ replicas); [do 4 eexists; reflexivity|].
    destruct (h _ (StatefulSets_UpdateScale handle _ _ _) w2) as [written w3].
    do 4 eexists; reflexivity.
  - destruct (Hscale eq_refl).
Qed.

End ScalerMore.

(** ** Further properties of the client provider and the asynchronous
    operations *)

Lemma find_same_elements {A : Type} (f : A -> bool) (l l' : list A) :
  (forall x, In x l <-> In x l') ->
  (find f l = None <-> find f l' = None).
Proof.
  intro Hsame. split; intro Hnone; apply find_nowhere; intros x Hx.
  - exact (find_none f l Hnone x (proj2 (Hsame x) Hx)).
  - exact (find_none f l' Hnone x (proj1 (Hsame x) Hx)).
Qed.

Lemma home_lookup_length (home : string) (t : trace) :
  home_lookup home t -> length t <= 2.
Proof. intros [[_ ->] | ->]; simpl; lia. Qed.

Lemma fallback_chain_length (t : trace) (config : error + k8srest.Config) :
  fallback_chain t config -> length t <= 6.
Proof.
  intros [cfg | c0 e1 path cfg | c0 c1 e1 e2 path home lookup cfg Hl
          | c0 c1 c2 e1 e2 e3 path home lookup Hl]; simpl; try lia;
    rewrite length_app; simpl; apply home_lookup_length in Hl; lia.
Qed.

(** X7.  Acquiring the client is a bounded affair that stays away from the
    cluster's resources: every call of [getClient] returns, after at most
    seven calls, each of them a configuration or construction call; it
    requests nothing of the cluster, sends nothing, and leaves the workload
    descriptors as they were. *)
Theorem getClient_only_configures {W : Type} (h : handler W) (w : W) (m : memory) :
  exists result m1 w1 t,
    run h (getClient m) w = (Done (result, m1), w1, t)
    /\ length t <= 7
    /\ forallb is_client_setup t = true
    /\ requests t = []
    /\ sends t = 0
    /\ workloads m1 = workloads m.
Proof.
  destruct (getClient_returns h m w)
    as (c & e & m1 & w1 & t & Hrun & Hsetup & Hw & _).
  exists (c, e), m1, w1, t. split; [exact Hrun|].
  destruct (setup_only _ Hsetup) as (Hs & _).
  destruct (setup_quiet _ Hsetup) as (Hr & _).
  repeat split; try assumption.
  destruct (client (k8sClient m)) as [cached|] eqn:Hc.
  - rewrite (getClient_cached m Hc) in Hrun. injection Hrun; intros; subst t. simpl. lia.
  - destruct (getClient_uncached h m w Hc)
      as (result & m2 & w2 & stages & build & Hrun' & config & Hchain & Hbuilt).
    rewrite Hrun in Hrun'. injection Hrun'; intros; subst t.
    rewrite length_app. apply fallback_chain_length in Hchain.
    destruct config as [err|cfg]; simpl in Hbuilt.
    + destruct Hbuilt as (-> & _). simpl. lia.
    + destruct Hbuilt as (cs & err & -> & _). simpl. lia.
Qed.

Section AsynchronousMore.

Variable EqualFold : string -> string -> bool.
Variable ToLower : string -> string.
Variable FormatLabelSelector : option metav1.LabelSelector -> string.

(** X8.  The three asynchronous operations only read.  In every run,
    whatever the world answers and however the run ends, [GetK8sWorkload]
    requests nothing or one get of the named StatefulSet in the given
    namespace, [VerifyNoHorizontalPodAutoscaler] nothing or one list of the
    autoscalers of the given namespace, [GetPods] nothing or, given the
    address of a workload, one list of the pods of the workload's namespace:
    none of them writes.  A run that returns leaves the workload descriptors
    as they were. *)
Theorem read_operations {W : Type} (h : handler W) (w : W) (m : memory) (channel : chan) :
  let unchanged (o : outcome (unit * memory)) :=
    match o with
    | Done (_, m') => workloads m' = workloads m
    | Panicked => True
    end in
  (forall kind namespace name,
     let '(o, _, t) := run h (GetK8sWorkload EqualFold channel kind namespace name m) w in
     (requests t = [] \/ requests t = [(get_statefulset, namespace, Some name)])
     /\ unchanged o)
  /\
  (forall kind namespace name,
     let '(o, _, t) :=
       run h (VerifyNoHorizontalPodAutoscaler EqualFold ToLower channel kind namespace name m) w
     in
     (requests t = [] \/ requests t = [(list_autoscalers, namespace, None)])
     /\ unchanged o)
  /\
  (forall workload,
     let '(o, _, t) := run h (GetPods FormatLabelSelector channel workload m) w in
     (requests t = []
      \/ exists a,
           workload = Some a
           /\ requests t = [(list_pods, Namespace (workloads m a), None)])
     /\ unchanged o).
Proof.
  intro unchanged. unfold requests. split; [|split].
  - intros kind namespace name. unfold GetK8sWorkload.
    destruct (EqualFold kind "StatefulSet").
    2:{ rewrite run_send. unfold ends_with_send. simpl. auto. }
    destruct (getStatefulSet_paths h w m namespace name)
      as (c & e & m1 & w1 & t1 & Hget & Hpaths).
    destruct (getClient_run_facts _ _ _ Hget) as (Hsetup & Hw & _).
    destruct (setup_quiet _ Hsetup) as (Hreq & _). unfold requests in Hreq.
    rewrite run_bind, Hpaths.
    destruct e as [err|]; [|destruct c as [c|]].
    + cbn [fst snd]. rewrite run_send. unfold ends_with_send. cbn [app].
      rewrite pick_app, Hreq. simpl. auto.
    + cbn zeta. destruct (h _ (StatefulSets_Get c namespace name) w1) as [got w2].
      rewrite run_send. unfold ends_with_send. cbn [app].
      rewrite !pick_app, Hreq. simpl. auto.
    + simpl. auto.
  - intros kind namespace name.
    destruct (VerifyNoHorizontalPodAutoscaler_paths EqualFold ToLower h w m channel
                kind namespace name) as (c & e & m1 & w1 & t1 & Hget & Hpaths).
    destruct (getClient_run_facts _ _ _ Hget) as (Hsetup & Hw & _).
    destruct (setup_quiet _ Hsetup) as (Hreq & _). unfold requests in Hreq.
    rewrite Hpaths. unfold ends_with_send.
    destruct e as [err|]; [|destruct c as [c|]].
    + rewrite pick_app, Hreq. simpl. auto.
    + cbn zeta.
      destruct (h _ (HorizontalPodAutoscalers_List c namespace metav1.no_options) w1)
        as [[[hpas|] [err|]] w2];
        try destruct (find (targets EqualFold kind name) (autoscalingv1.Items hpas));
        rewrite !pick_app, Hreq; simpl; auto.
    + simpl. auto.
  - intros [workload|].
    2:{ destruct (GetPods_nil FormatLabelSelector h w m channel)
          as (c & e & m1 & w1 & t1 & Hget & Hpaths).
        destruct (getClient_run_facts _ _ _ Hget) as (Hsetup & Hw & _).
        destruct (setup_quiet _ Hsetup) as (Hreq & _). unfold requests in Hreq.
        rewrite Hpaths. unfold ends_with_send. destruct e as [err|].
        - rewrite pick_app, Hreq. simpl. auto.
        - simpl. auto. }
    destruct (GetPods_paths FormatLabelSelector h w m channel workload)
      as (c & e & m1 & w1 & t1 & Hget & Hpaths).
    destruct (getClient_run_facts _ _ _ Hget) as (Hsetup & Hw & _).
    destruct (setup_quiet _ Hsetup) as (Hreq & _). unfold requests in Hreq.
    rewrite Hpaths. unfold ends_with_send.
    destruct e as [err|]; [|destruct c as [c|]].
    + rewrite pick_app, Hreq. simpl. auto.
    + cbn zeta.
      match goal with
      | |- context [h _ (Pods_List ?c ?n ?o) w1] =>
          destruct (h _ (Pods_List c n o) w1) as [[[pods|] [err|]] w2]
      end; rewrite !pick_app, Hreq; simpl;
        (split; [right; exists workload; split; reflexivity|auto]).
    + simpl. auto.
Qed.

(** X9.  The client is configured once.  With a client stored, none of
    the four operations makes a configuration or construction call, and a
    run that returns leaves the memory, the stored client included, as it
    is. *)
Theorem stored_client_is_used {W : Type} (h : handler W) (w : W) (m : memory)
    (channel : chan) (c : k8s.Clientset) :
  let untouched {A : Type} (r : outcome (A * memory) * W * trace) :=
    filter is_client_setup (snd r) = []
    /\ match fst (fst r) with
       | Done (_, m') => m' = m
       | Panicked => True
       end in
  client (k8sClient m) = Some c ->
  (forall kind namespace name,
     untouched (run h (GetK8sWorkload EqualFold channel kind namespace name m) w))
  /\ (forall kind namespace name,
        untouched (run h (VerifyNoHorizontalPodAutoscaler EqualFold ToLower channel
                            kind namespace name m) w))
  /\ (forall resource replicas, untouched (run h (Scale EqualFold resource replicas m) w))
  /\ (forall workload, untouched (run h (GetPods FormatLabelSelector channel workload m) w)).
Proof.
  intros untouched Hcached. unfold untouched.
  assert (Hget : run h (getClient m) w = (Done ((Some c, None), m), w, []))
    by (rewrite (getClient_cached m Hcached); reflexivity).
  split; [|split; [|split]].
  - intros kind namespace name. unfold GetK8sWorkload.
    destruct (EqualFold kind "StatefulSet").
    2:{ rewrite run_send. unfold ends_with_send. simpl. auto. }
    destruct (getStatefulSet_paths h w m namespace name)
      as (c' & e' & m1 & w1 & t1 & Hget' & Hpaths).
    rewrite Hget in Hget'. injection Hget' as <- <- <- <- <-.
    rewrite run_bind, Hpaths. cbn zeta.
    destruct (h _ (StatefulSets_Get c namespace name) w) as [got w2].
    rewrite run_send. unfold ends_with_send. simpl. auto.
  - intros kind namespace name.
    destruct (VerifyNoHorizontalPodAutoscaler_paths EqualFold ToLower h w m channel
                kind namespace name) as (c' & e' & m1 & w1 & t1 & Hget' & Hpaths).
    rewrite Hget in Hget'. injection Hget' as <- <- <- <- <-.
    rewrite Hpaths. unfold ends_with_send. cbn zeta.
    destruct (h _ (HorizontalPodAutoscalers_List c namespace metav1.no_options) w)
      as [[[hpas|] [err|]] w2];
      try destruct (find (targets EqualFold kind name) (autoscalingv1.Items hpas));
      simpl; auto.
  - intros [resource|] replicas.
    2:{ destruct (Scale_nil EqualFold h w m replicas)
          as (c' & e' & m1 & w1 & t1 & Hget' & Hpaths).
        rewrite Hget in Hget'. injection Hget' as <- <- <- <- <-.
        rewrite Hpaths. simpl. auto. }
    destruct (Scale_paths EqualFold h w m resource replicas)
      as (c' & e' & m1 & w1 & t1 & Hget' & Hpaths).
    rewrite Hget in Hget'. injection Hget' as <- <- <- <- <-.
    rewrite Hpaths. cbn zeta.
    destruct (EqualFold _ "StatefulSet"); [|simpl; auto].
    destruct (h _ (StatefulSets_GetScale c _ _) w) as [[[scale|] [err|]] w2];
      try (simpl; auto; fail).
    destruct (Z.eqb _ replicas); [simpl; auto|].
    destruct (h _ (StatefulSets_UpdateScale c _ _ _) w2) as [written w3]. simpl. auto.
  - intros [workload|].
    2:{ destruct (GetPods_nil FormatLabelSelector h w m channel)
          as (c' & e' & m1 & w1 & t1 & Hget' & Hpaths).
        rewrite Hget in Hget'. injection Hget' as <- <- <- <- <-.
        rewrite Hpaths. simpl. auto. }
    destruct (GetPods_paths FormatLabelSelector h w m channel workload)
      as (c' & e' & m1 & w1 & t1 & Hget' & Hpaths).
    rewrite Hget in Hget'. injection Hget' as <- <- <- <- <-.
    rewrite Hpaths. unfold ends_with_send. cbn zeta.
    match goal with
    | |- context [h _ (Pods_List ?c ?n ?o) w] =>
        destruct (h _ (Pods_List c n o) w) as [[[pods|] [err|]] w2]
    end; simpl; auto.
Qed.

(** X10.  The message is the last thing an asynchronous operation does.  A
    run of [GetK8sWorkload], [VerifyNoHorizontalPodAutoscaler] or [GetPods]
    that returns ends with a send on the given channel and sent nothing
    before it; a run that panics sent nothing at all. *)
Theorem message_comes_last {W : Type} (h : handler W) (w : W) (m : memory) (channel : chan) :
  let last_is (sent : event -> option chan) (r : outcome (unit * memory) * W * trace) :=
    match fst (fst r) with
    | Done _ =>
        exists before e,
          snd r = before ++ [e] /\ sent e = Some channel /\ sends before = 0
    | Panicked => sends (snd r) = 0
    end in
  let to (A : Type) (f : event -> option (chan * A)) (e : event) :=
    option_map fst (f e) in
  (forall kind namespace name,
     last_is (to _ workload_message)
       (run h (GetK8sWorkload EqualFold channel kind namespace name m) w))
  /\ (forall kind namespace name,
        last_is (to _ error_message)
          (run h (VerifyNoHorizontalPodAutoscaler EqualFold ToLower channel
                    kind namespace name m) w))
  /\ (forall workload,
        last_is (to _ pods_message)
          (run h (GetPods FormatLabelSelector channel workload m) w)).
Proof.
  intros last_is to. unfold last_is, to. split; [|split].
  - intros kind namespace name. unfold GetK8sWorkload.
    destruct (EqualFold kind "StatefulSet").
    2:{ rewrite run_send. unfold ends_with_send. cbn [fst snd].
        exists [], (Event (Send_WorkloadReturn channel
                      (GetWorkloadReturn None
                         (Some (Errorf ("Resource kind " ++ kind ++ " is not implemented")))))
                      tt).
        repeat split. }
    destruct (getStatefulSet_paths h w m namespace name)
      as (c & e & m1 & w1 & t1 & Hget & Hpaths).
    destruct (getClient_run_facts _ _ _ Hget) as (Hsetup & _).
    destruct (setup_only _ Hsetup) as (Hs & _).
    rewrite run_bind, Hpaths.
    destruct e as [err|]; [|destruct c as [c|]].
    + cbn [fst snd]. rewrite run_send. unfold ends_with_send. cbn [fst snd app].
      do 2 eexists. split; [reflexivity|]. split; [reflexivity|exact Hs].
    + cbn zeta. destruct (h _ (StatefulSets_Get c namespace name) w1) as [got w2].
      rewrite run_send. unfold ends_with_send. cbn [fst snd app].
      do 2 eexists. split; [reflexivity|]. split; [reflexivity|].
      rewrite sends_app, Hs. reflexivity.
    + cbn [fst snd]. exact Hs.
  - intros kind namespace name.
    destruct (VerifyNoHorizontalPodAutoscaler_paths EqualFold ToLower h w m channel
                kind namespace name) as (c & e & m1 & w1 & t1 & Hget & Hpaths).
    destruct (getClient_run_facts _ _ _ Hget) as (Hsetup & _).
    destruct (setup_only _ Hsetup) as (Hs & _).
    rewrite Hpaths. unfold ends_with_send, conflict.
    destruct e as [err|]; [|destruct c as [c|]].
    + cbn [fst snd]. do 2 eexists. split; [reflexivity|]. split; [reflexivity|exact Hs].
    + cbn zeta.
      destruct (h _ (HorizontalPodAutoscalers_List c namespace metav1.no_options) w1)
        as [[[hpas|] [err|]] w2];
        try destruct (find (targets EqualFold kind name) (autoscalingv1.Items hpas));
        cbn [fst snd];
        first [ do 2 eexists; split; [reflexivity|]; split; [reflexivity|];
                rewrite sends_app, Hs; reflexivity
              | rewrite sends_app, Hs; reflexivity ].
    + cbn [fst snd]. exact Hs.
  - intros [workload|].
    2:{ destruct (GetPods_nil FormatLabelSelector h w m channel)
          as (c & e & m1 & w1 & t1 & Hget & Hpaths).
        destruct (getClient_run_facts _ _ _ Hget) as (Hsetup & _).
        destruct (setup_only _ Hsetup) as (Hs & _).
        rewrite Hpaths. unfold ends_with_send. destruct e as [err|]; cbn [fst snd].
        - do 2 eexists. split; [reflexivity|]. split; [reflexivity|exact Hs].
        - exact Hs. }
    destruct (GetPods_paths FormatLabelSelector h w m channel workload)
      as (c & e & m1 & w1 & t1 & Hget & Hpaths).
    destruct (getClient_run_facts _ _ _ Hget) as (Hsetup & _).
    destruct (setup_only _ Hsetup) as (Hs & _).
    rewrite Hpaths. unfold ends_with_send.
    destruct e as [err|]; [|destruct c as [c|]].
    + cbn [fst snd]. do 2 eexists. split; [reflexivity|]. split; [reflexivity|exact Hs].
    + cbn zeta.
      match goal with
      | |- context [h _ (Pods_List ?c ?n ?o) w1] =>
          destruct (h _ (Pods_List c n o) w1) as [[[pods|] [err|]] w2]
      end; cbn [fst snd];
        first [ do 2 eexists; split; [reflexivity|]; split; [reflexivity|];
                rewrite sends_app, Hs; reflexivity
              | rewrite sends_app, Hs; reflexivity ].
    + cbn [fst snd]. exact Hs.
Qed.

(** X11.  [VerifyNoHorizontalPodAutoscaler] forwards a failure and does not
    look further.  When the client cannot be acquired it sends the
    acquisition error and lists nothing.  When the list call answers with an
    error it sends that error, whatever list came with it: autoscalers on
    the queried resource among them do not turn it into a conflict. *)
Theorem VerifyNoHorizontalPodAutoscaler_forwards {W : Type} (h : handler W) (w : W)
    (m : memory) (channel : chan) (kind namespace name : string)
    (c : option k8s.Clientset) (e : option error) (m1 : memory) (w1 : W) (t1 : trace) :
  let verify := VerifyNoHorizontalPodAutoscaler EqualFold ToLower channel kind namespace name in
  run h (getClient m) w = (Done ((c, e), m1), w1, t1) ->
  (forall err, e = Some err ->
     run h (verify m) w
     = (Done (tt, m1), snd (h _ (Send_error channel (Some err)) w1),
        t1 ++ [Event (Send_error channel (Some err)) tt])
     /\ requests (t1 ++ [Event (Send_error channel (Some err)) tt]) = [])
  /\
  (forall handle listed err w2,
     c = Some handle -> e = None ->
     let list := HorizontalPodAutoscalers_List handle namespace metav1.no_options in
     h _ list w1 = ((listed, Some err), w2) ->
     run h (verify m) w
     = (Done (tt, m1), snd (h _ (Send_error channel (Some err)) w2),
        t1 ++ [Event list (listed, Some err); Event (Send_error channel (Some err)) tt])).
Proof.
  intros verify Hget. unfold verify.
  destruct (VerifyNoHorizontalPodAutoscaler_paths EqualFold ToLower h w m channel
              kind namespace name) as (c' & e' & m1' & w1' & t1' & Hget' & Hpaths).
  rewrite Hget in Hget'. injection Hget' as <- <- <- <- <-.
  destruct (getClient_run_facts _ _ _ Hget) as (Hsetup & _).
  destruct (setup_quiet _ Hsetup) as (Hreq & _).
  split.
  - intros err ->. rewrite Hpaths. split; [reflexivity|].
    unfold requests in *. rewrite pick_app, Hreq. reflexivity.
  - intros handle listed err w2 -> -> Hlist.
    cbn zeta in Hpaths. rewrite Hlist in Hpaths.
    rewrite Hpaths. unfold ends_with_send. rewrite <- app_assoc.
    destruct listed; reflexivity.
Qed.

(** X12.  The verdict of [VerifyNoHorizontalPodAutoscaler] does not depend
    on how the autoscalers are listed.  Two runs with the same query whose
    list calls succeed with lists that have the same elements, in whatever
    order and however often, send the same message. *)
Theorem verdict_ignores_order {W W' : Type} (h : handler W) (h' : handler W')
    (w : W) (w' : W') (m m' : memory) (channel : chan) (kind namespace name : string)
    (c c' : k8s.Clientset) (m1 m1' : memory) (w1 : W) (w1' : W') (t1 t1' : trace)
    (hpas hpas' : autoscalingv1.HorizontalPodAutoscalerList) (w2 : W) (w2' : W') :
  let verify := VerifyNoHorizontalPodAutoscaler EqualFold ToLower channel kind namespace name in
  run h (getClient m) w = (Done ((Some c, None), m1), w1, t1) ->
  h _ (HorizontalPodAutoscalers_List c namespace metav1.no_options) w1
  = ((Some hpas, None), w2) ->
  run h' (getClient m') w' = (Done ((Some c', None), m1'), w1', t1') ->
  h' _ (HorizontalPodAutoscalers_List c' namespace metav1.no_options) w1'
  = ((Some hpas', None), w2') ->
  (forall x, In x (autoscalingv1.Items hpas) <-> In x (autoscalingv1.Items hpas')) ->
  pick error_message (snd (run h (verify m) w))
  = pick error_message (snd (run h' (verify m') w')).
Proof.
  intros verify Hget Hlist Hget' Hlist' Hsame. unfold verify.
  destruct (VerifyNoHorizontalPodAutoscaler_paths EqualFold ToLower h w m channel
              kind namespace name) as (c0 & e0 & m0 & w0 & t0 & Hg & Hpaths).
  rewrite Hget in Hg. injection Hg as <- <- <- <- <-.
  destruct (VerifyNoHorizontalPodAutoscaler_paths EqualFold ToLower h' w' m' channel
              kind namespace name) as (c0 & e0 & m0 & w0 & t0 & Hg & Hpaths').
  rewrite Hget' in Hg. injection Hg as <- <- <- <- <-.
  cbn zeta in Hpaths, Hpaths'. rewrite Hlist in Hpaths. rewrite Hlist' in Hpaths'.
  destruct (getClient_run_facts _ _ _ Hget) as (Hsetup & _).
  destruct (setup_only _ Hsetup) as (_ & _ & _ & _ & _ & Hp & _).
  destruct (getClient_run_facts _ _ _ Hget') as (Hsetup' & _).
  destruct (setup_only _ Hsetup') as (_ & _ & _ & _ & _ & Hp' & _).
  rewrite Hpaths, Hpaths'.
  pose proof (find_same_elements (targets EqualFold kind name) _ _ Hsame) as Hfind.
  unfold ends_with_send.
  destruct (find (targets EqualFold kind name) (autoscalingv1.Items hpas)) as [found|];
    destruct (find (targets EqualFold kind name) (autoscalingv1.Items hpas')) as [found'|];
    cbn [snd]; rewrite ?pick_app, ?Hp, ?Hp'; try reflexivity.
  - destruct Hfind as [_ Habsurd]. discriminate (Habsurd eq_refl).
  - destruct Hfind as [Habsurd _]. discriminate (Habsurd eq_refl).
Qed.

(** X13.  A nil workload pointer is looked through only once the client is
    there.  When the client cannot be acquired, [Scale] on a nil pointer
    returns the acquisition error and [GetPods] on a nil pointer sends it,
    as they do for any pointer.  When the client is acquired, both panic at
    their first look at the workload: after the acquisition and before any
    request on the cluster and any send. *)
Theorem nil_workload {W : Type} (h : handler W) (w : W) (m : memory)
    (channel : chan) (replicas : Z)
    (c : option k8s.Clientset) (e : option error) (m1 : memory) (w1 : W) (t1 : trace) :
  run h (getClient m) w = (Done ((c, e), m1), w1, t1) ->
  (e = None ->
     run h (Scale EqualFold None replicas m) w = (Panicked, w1, t1)
     /\ run h (GetPods FormatLabelSelector channel None m) w = (Panicked, w1, t1)
     /\ requests t1 = []
     /\ sends t1 = 0)
  /\
  (forall err, e = Some err ->
     let message := Send_Pods channel {| Pods_ := nil; Err := Some err |} in
     run h (Scale EqualFold None replicas m) w = (Done (Some err, m1), w1, t1)
     /\ run h (GetPods FormatLabelSelector channel None m) w
        = (Done (tt, m1), snd (h _ message w1), t1 ++ [Event message tt])).
Proof.
  intro Hget.
  destruct (Scale_nil EqualFold h w m replicas)
    as (c' & e' & m1' & w1' & t1' & Hget' & Hscale).
  rewrite Hget in Hget'. injection Hget' as <- <- <- <- <-.
  destruct (GetPods_nil FormatLabelSelector h w m channel)
    as (c' & e' & m1' & w1' & t1' & Hget' & Hpods).
  rewrite Hget in Hget'. injection Hget' as <- <- <- <- <-.
  destruct (getClient_run_facts _ _ _ Hget) as (Hsetup & _).
  destruct (setup_only _ Hsetup) as (Hs & _).
  destruct (setup_quiet _ Hsetup) as (Hreq & _).
  split.
  - intros ->. repeat split; assumption.
  - intros err -> message. split; assumption.
Qed.

End AsynchronousMore.

(** ** The further properties on the scripted cluster *)

Lemma Scale_nil_means_desired_witness :
  let five := autoscalingv1.set_Replicas (scale_of "ns" "agents" 3) 5 in
  let t := snd (run scripted (Scale EqualFold_ascii (Some 0) 5 fresh) in_pod) in
  run scripted (Scale EqualFold_ascii (Some 0) 5 fresh) in_pod
  = (Done (None, cached pod_client), set_replicas_now in_pod 5, t)
  /\ fetched_scales t = [scale_of "ns" "agents" 3]
  /\ update_writes t = [(pod_client, "ns", "agents", five)]
  /\ pick update_answer t = [None]
  /\ exists c scale,
       client (k8sClient (cached pod_client)) = Some c
       /\ fetched_scales t = [scale]
       /\ ((autoscalingv1.Replicas (autoscalingv1.Spec scale) = 5%Z /\ update_writes t = [])
           \/ (autoscalingv1.Replicas (autoscalingv1.Spec scale) <> 5%Z
               /\ update_writes t
                  = [(c, "ns", "agents", autoscalingv1.set_Replicas scale 5)]
               /\ pick update_answer t = [None])).
Proof.
  intros five t.
  assert (Hrun : run scripted (Scale EqualFold_ascii (Some 0) 5 fresh) in_pod
                 = (Done (None, cached pod_client), set_replicas_now in_pod 5, t))
    by reflexivity.
  split; [exact Hrun|]. split; [reflexivity|]. split; [reflexivity|].
  split; [reflexivity|].
  destruct (Scale_nil_means_desired _ _ _ _ _ _ Hrun) as (a & Ha & _ & Hrest).
  injection Ha as <-. exact Hrest.
Defined.

Lemma Scale_error_is_first_failure_witness :
  let refused := libraryError 409 "the object has been modified" in
  let t := snd (run scripted (Scale EqualFold_ascii (Some 0) 5 fresh) contended) in
  run scripted (Scale EqualFold_ascii (Some 0) 5 fresh) contended
  = (Done (Some refused, cached pod_client), contended, t)
  /\ (update_writes t = []
      \/ (exists write, update_writes t = [write]) /\ pick update_answer t = [Some refused])
  /\ pick update_answer t = [Some refused].
Proof.
  intros refused t.
  assert (Hrun : run scripted (Scale EqualFold_ascii (Some 0) 5 fresh) contended
                 = (Done (Some refused, cached pod_client), contended, t))
    by reflexivity.
  split; [exact Hrun|].
  split; [exact (Scale_error_is_first_failure _ _ _ _ _ _ Hrun)|reflexivity].
Defined.

(** Three replicas, five asked for twice: the second call only fetches. *)
Lemma Scale_again_witness :
  let scaled := set_replicas_now in_pod 5 in
  let fetch := StatefulSets_GetScale pod_client "ns" "agents" in
  let fetched : option autoscalingv1.Scale * option error :=
    (Some (scale_of "ns" "agents" 5), None) in
  run scripted (Scale EqualFold_ascii (Some 0) 5 fresh) in_pod
  = (Done (None, cached pod_client), scaled,
     snd (run scripted (Scale EqualFold_ascii (Some 0) 5 fresh) in_pod))
  /\ scripted _ fetch scaled = (fetched, scaled)
  /\ run scripted (Scale EqualFold_ascii (Some 0) 5 (cached pod_client)) scaled
     = (Done (None, cached pod_client), scaled, [Event fetch fetched]).
Proof.
  intros scaled fetch fetched.
  assert (Hrun : run scripted (Scale EqualFold_ascii (Some 0) 5 fresh) in_pod
                 = (Done (None, cached pod_client), scaled,
                    snd (run scripted (Scale EqualFold_ascii (Some 0) 5 fresh) in_pod)))
    by reflexivity.
  assert (Hfetch : scripted _ fetch scaled = (fetched, scaled)) by reflexivity.
  split; [exact Hrun|]. split; [exact Hfetch|].
  destruct (Scale_again _ _ _ _ _ _ Hrun) as (a & c & Ha & Hstored & Hsecond).
  injection Ha as <-. injection Hstored as <-.
  exact (Hsecond (scale_of "ns" "agents" 5) scaled Hfetch eq_refl).
Defined.

Lemma Scale_unsupported_when_cached_witness :
  client (k8sClient (cached pod_client)) = Some pod_client
  /\ EqualFold_ascii (Kind (workloads (cached pod_client) 1)) "StatefulSet" = false
  /\ run scripted (Scale EqualFold_ascii (Some 1) 5 (cached pod_client)) unconfigured
     = (Done (Some (Errorf "Resource kind Deployment is not implemented"),
              cached pod_client), unconfigured, []).
Proof.
  assert (Hcached : client (k8sClient (cached pod_client)) = Some pod_client)
    by reflexivity.
  assert (Hkind : EqualFold_ascii (Kind (workloads (cached pod_client) 1)) "StatefulSet"
                  = false) by reflexivity.
  split; [exact Hcached|]. split; [exact Hkind|].
  exact (Scale_unsupported_when_cached EqualFold_ascii scripted unconfigured
           (cached pod_client) 1 5 Hcached Hkind).
Defined.

Lemma Scale_returns_witness :
  no_nil_without_error scripted
  /\ no_nil_scale scripted
  /\ exists err m' w' t,
       run scripted (Scale EqualFold_ascii (Some 0) 5 fresh) workstation = (Done (err, m'), w', t).
Proof.
  assert (Hconv : no_nil_without_error scripted).
  { intro w. repeat split; intros; simpl; discriminate. }
  assert (Hscale : no_nil_scale scripted).
  { intros w c namespace name. simpl. discriminate. }
  split; [exact Hconv|]. split; [exact Hscale|].
  exact (Scale_returns EqualFold_ascii (h := scripted) workstation fresh 0 5 Hconv Hscale).
Defined.

Lemma stored_client_is_used_witness :
  client (k8sClient (cached pod_client)) = Some pod_client
  /\ filter is_client_setup
       (snd (run scripted (GetPods FormatLabelSelector_labels results (Some 0) (cached pod_client))
               in_pod)) = []
  /\ filter is_client_setup
       (snd (run scripted (Scale EqualFold_ascii (Some 0) 5 (cached pod_client)) in_pod)) = []
  /\ fst (fst (run scripted (Scale EqualFold_ascii (Some 0) 5 (cached pod_client)) in_pod))
     = Done (None, cached pod_client).
Proof.
  assert (Hcached : client (k8sClient (cached pod_client)) = Some pod_client)
    by reflexivity.
  split; [exact Hcached|].
  destruct (stored_client_is_used EqualFold_ascii ToLower_ascii FormatLabelSelector_labels
              scripted in_pod (cached pod_client) results Hcached)
    as (_ & _ & Hscale & Hpods).
  split; [exact (proj1 (Hpods (Some 0)))|].
  split; [exact (proj1 (Hscale (Some 0) 5%Z))|reflexivity].
Defined.

(** The list is refused although an autoscaler on the target is in it: the
    refusal is what gets sent. *)
Lemma VerifyNoHorizontalPodAutoscaler_forwards_witness :
  let refusal := libraryError 403 "horizontalpodautoscalers.autoscaling is forbidden" in
  let list := HorizontalPodAutoscalers_List pod_client "ns" metav1.no_options in
  let listed : option autoscalingv1.HorizontalPodAutoscalerList * option error :=
    (Some {| autoscalingv1.Items := autoscalers in_pod |}, Some refusal) in
  run refusing (getClient fresh) in_pod
  = (Done ((Some pod_client, None), cached pod_client), in_pod, pod_setup)
  /\ refusing _ list in_pod = (listed, in_pod)
  /\ targets EqualFold_ascii "StatefulSet" "target" (hpa_for "statefulset" "target") = true
  /\ run refusing
       (VerifyNoHorizontalPodAutoscaler EqualFold_ascii ToLower_ascii results
          "StatefulSet" "ns" "target" fresh) in_pod
     = (Done (tt, cached pod_client), in_pod,
        pod_setup ++ [Event list listed; Event (Send_error results (Some refusal)) tt]).
Proof.
  intros refusal list listed.
  assert (Hget : run refusing (getClient fresh) in_pod
                 = (Done ((Some pod_client, None), cached pod_client), in_pod, pod_setup))
    by reflexivity.
  assert (Hlist : refusing _ list in_pod = (listed, in_pod)) by reflexivity.
  split; [exact Hget|]. split; [exact Hlist|]. split; [reflexivity|].
  exact (proj2 (@VerifyNoHorizontalPodAutoscaler_forwards EqualFold_ascii ToLower_ascii
                  _ refusing in_pod fresh results "StatefulSet" "ns" "target"
                  _ _ _ _ _ Hget)
           pod_client _ refusal in_pod eq_refl eq_refl Hlist).
Defined.

Lemma verdict_ignores_order_witness :
  let verify :=
    VerifyNoHorizontalPodAutoscaler EqualFold_ascii ToLower_ascii results
      "StatefulSet" "ns" "target" in
  autoscalers in_pod_reversed
  = [hpa_for "statefulset" "target"; hpa_for "Deployment" "bar"; hpa_for "Deployment" "foo"]
  /\ (forall x, In x (autoscalers in_pod) <-> In x (autoscalers in_pod_reversed))
  /\ pick error_message (snd (run scripted (verify fresh) in_pod))
     = pick error_message (snd (run scripted (verify fresh) in_pod_reversed)).
Proof.
  intro verify.
  assert (Hsame : forall x, In x (autoscalers in_pod) <-> In x (autoscalers in_pod_reversed)).
  { intro x. apply in_rev. }
  split; [reflexivity|]. split; [exact Hsame|].
  refine (@verdict_ignores_order EqualFold_ascii ToLower_ascii _ _ scripted scripted
            in_pod in_pod_reversed fresh fresh results "StatefulSet" "ns" "target"
            pod_client pod_client (cached pod_client) (cached pod_client)
            in_pod in_pod_reversed pod_setup pod_setup
            {| autoscalingv1.Items := autoscalers in_pod |}
            {| autoscalingv1.Items := autoscalers in_pod_reversed |}
            in_pod in_pod_reversed eq_refl eq_refl eq_refl eq_refl Hsame).
Defined.

Lemma nil_workload_witness :
  let refused :=
    Errorf
      "Error initializing Kubernetes config: invalid configuration: no configuration has been provided" in
  let message := Send_Pods results {| Pods_ := nil; Err := Some refused |} in
  run scripted (getClient fresh) in_pod
  = (Done ((Some pod_client, None), cached pod_client), in_pod, pod_setup)
  /\ run scripted (Scale EqualFold_ascii None 5 fresh) in_pod = (Panicked, in_pod, pod_setup)
  /\ run scripted (GetPods FormatLabelSelector_labels results None fresh) in_pod
     = (Panicked, in_pod, pod_setup)
  /\ run scripted (getClient fresh) unconfigured
     = (Done ((None, Some refused), fresh), unconfigured,
        snd (run scripted (getClient fresh) unconfigured))
  /\ run scripted (Scale EqualFold_ascii None 5 fresh) unconfigured
     = (Done (Some refused, fresh), unconfigured,
        snd (run scripted (getClient fresh) unconfigured))
  /\ run scripted (GetPods FormatLabelSelector_labels results None fresh) unconfigured
     = (Done (tt, fresh), unconfigured,
        snd (run scripted (getClient fresh) unconfigured) ++ [Event message tt]).
Proof.
  intros refused message.
  assert (Hworks : run scripted (getClient fresh) in_pod
                   = (Done ((Some pod_client, None), cached pod_client), in_pod, pod_setup))
    by reflexivity.
  assert (Hfails : run scripted (getClient fresh) unconfigured
                   = (Done ((None, Some refused), fresh), unconfigured,
                      snd (run scripted (getClient fresh) unconfigured)))
    by reflexivity.
  destruct (@nil_workload EqualFold_ascii FormatLabelSelector_labels _ _ _ _ results 5
              _ _ _ _ _ Hworks)
    as [Hpanic _].
  destruct (@nil_workload EqualFold_ascii FormatLabelSelector_labels _ _ _ _ results 5
              _ _ _ _ _ Hfails)
    as [_ Herror].
  destruct (Hpanic eq_refl) as (Hscale & Hpods & _).
  destruct (Herror refused eq_refl) as (Hscale' & Hpods').
  repeat split; assumption.
Defined.
